(** * Benchmark harness and comparative reporting engine

    A shallow embedding of [benchmark_powsybl.py] and [run_comparison.py]
    and the properties of their timing, record building and comparison
    logic.

    Python values are modelled as follows.
    - A Python [float] is an IEEE 754 binary64 number: [spec_float] with
      the operations of [SpecFloat] at precision 53 and exponent bound 1024.
    - A [str] is a [string]; a [dict] with string keys is an association
      list in insertion order; [None] is the [None] of [option].
    - Code that prints, reads the clock, calls the solver library or touches
      files is a state and exception monad over an explicit world. *)

From Stdlib Require Import ZArith Lia Bool List Ascii String.
From Stdlib Require Import SpecFloat.
From stdpp Require Import base option list sorting gmap strings pretty.

Local Open Scope Z_scope.

(** ** Python floats *)

Module PyFloat.

Abbreviation float := spec_float.

Definition prec : Z := 53.
Definition emax : Z := 1024.

Definition of_Z (z : Z) : float := binary_normalize prec emax z 0 false.

Definition zero : float := S754_zero false.
Definition inf : float := S754_infinity false.

Definition sub (x y : float) : float := SFsub prec emax x y.
Definition mul (x y : float) : float := SFmul prec emax x y.
Definition div (x y : float) : float := SFdiv prec emax x y.
Definition eqb (x y : float) : bool := SFeqb x y.
Definition ltb (x y : float) : bool := SFltb x y.
Definition leb (x y : float) : bool := SFleb x y.

(** A float that [json] or the clock can hold and that is neither an
    infinity nor a NaN. *)
Definition is_finite (x : float) : bool :=
  match x with
  | S754_zero _ => true
  | S754_finite _ m e => bounded prec emax m e
  | _ => false
  end.

(** The sign class of a float: [has_sign s x] says that [x] is a zero, a
    finite number or an infinity that carries the sign bit [s]. *)
Definition has_sign (s : bool) (x : float) : Prop :=
  match x with
  | S754_zero s' | S754_infinity s' | S754_finite s' _ _ => s' = s
  | S754_nan => False
  end.

End PyFloat.

(** ** Python strings and formatting *)

Module PyStr.
Import PyFloat.
Local Open Scope string_scope.

Definition newline : string := String "010" EmptyString.

(** [s * n] for a string [s] and a count [n]. *)
Fixpoint str_mul (s : string) (n : nat) : string :=
  match n with
  | O => ""
  | S n' => s +:+ str_mul s n'
  end.

(** [s.replace(old, new)] for one-character [old] and [new]. *)
Fixpoint replace_char (old new : ascii) (s : string) : string :=
  match s with
  | EmptyString => EmptyString
  | String c s' =>
      String (if Ascii.eqb c old then new else c) (replace_char old new s')
  end.

Definition is_lower (c : ascii) : bool :=
  let n := nat_of_ascii c in (97 <=? n)%nat && (n <=? 122)%nat.
Definition is_upper (c : ascii) : bool :=
  let n := nat_of_ascii c in (65 <=? n)%nat && (n <=? 90)%nat.
Definition to_upper (c : ascii) : ascii :=
  if is_lower c then ascii_of_nat (nat_of_ascii c - 32) else c.
Definition to_lower (c : ascii) : ascii :=
  if is_upper c then ascii_of_nat (nat_of_ascii c + 32) else c.

(** [s.title()] on ASCII text: a letter that follows a letter is put in
    lower case, any other letter in upper case. *)
Fixpoint title_from (prev_cased : bool) (s : string) : string :=
  match s with
  | EmptyString => EmptyString
  | String c s' =>
      let cased := is_lower c || is_upper c in
      String (if prev_cased then to_lower c else to_upper c) (title_from cased s')
  end.
Definition title (s : string) : string := title_from false s.

(** [str(n)] for a length or a count. *)
Definition str_of_nat (n : nat) : string := pretty n.

(** Division of [n] by [d > 0] rounded to the nearest integer, ties to
    the even one. *)
Definition div_half_even (n d : Z) : Z :=
  let q := (n / d)%Z in
  let r := (n mod d)%Z in
  match (2 * r ?= d)%Z with
  | Lt => q
  | Gt => (q + 1)%Z
  | Eq => if Z.even q then q else (q + 1)%Z
  end.

(** The hundredths of the absolute value [m * 2^e], correctly rounded. *)
Definition hundredths (m : positive) (e : Z) : Z :=
  match e with
  | Z0 => (Z.pos m * 100)%Z
  | Zpos k => (Z.pos m * 100 * 2 ^ Z.pos k)%Z
  | Zneg k => div_half_even (Z.pos m * 100) (2 ^ Z.pos k)
  end.

Definition two_digits (n : Z) : string :=
  (if (n <? 10)%Z then "0" else "") +:+ pretty n.

(** [f"{x:.2f}"]: fixed notation with two decimals, correctly rounded from
    the exact binary value. *)
Definition format_2f (x : float) : string :=
  match x with
  | S754_nan => "nan"
  | S754_infinity s => if s then "-inf" else "inf"
  | S754_zero s => if s then "-0.00" else "0.00"
  | S754_finite s m e =>
      let h := hundredths m e in
      (if s then "-" else "") +:+ pretty (h / 100)%Z +:+ "." +:+ two_digits (h mod 100)%Z
  end.

(** [c in s] for a character [c]. *)
Fixpoint contains (c : ascii) (s : string) : bool :=
  match s with
  | EmptyString => false
  | String x s' => Ascii.eqb x c || contains c s'
  end.

End PyStr.

(** ** Python dictionaries with string keys, in insertion order *)

Module PyDict.

Definition dict (V : Type) : Type := list (string * V).

(** [d.get(k)], [None] when the key is absent. *)
Fixpoint get {V : Type} (k : string) (d : dict V) : option V :=
  match d with
  | [] => None
  | (k', v) :: d' => if String.eqb k k' then Some v else get k d'
  end.

(** [d[k] = v]: an existing key keeps its place, a new key goes last. *)
Fixpoint set {V : Type} (k : string) (v : V) (d : dict V) : dict V :=
  match d with
  | [] => [(k, v)]
  | (k', v') :: d' =>
      if String.eqb k k' then (k, v) :: d' else (k', v') :: set k v d'
  end.

End PyDict.


(** ** Exceptions and effects

    A computation takes a world and returns a value or a raised exception,
    together with the world it left behind.  An exception carries its
    class, as far as the scripts tell classes apart, and its text. *)

Module PyEff.

Inductive exn_class :=
| FileNotFoundError
| TimeoutExpired
| OtherException   (* any other instance of [Exception] *)
| BaseOnly.        (* [KeyboardInterrupt], [SystemExit]: not an [Exception] *)

Record exn := Exn { class : exn_class; message : string }.

(** The [except] clauses of the scripts. *)
Inductive except_clause :=
| ExceptException
| ExceptFileNotFoundError
| ExceptTimeoutExpired.

Definition catches (c : except_clause) (e : exn) : bool :=
  match c, class e with
  | ExceptException, BaseOnly => false
  | ExceptException, _ => true
  | ExceptFileNotFoundError, FileNotFoundError => true
  | ExceptTimeoutExpired, TimeoutExpired => true
  | _, _ => false
  end.

Inductive outcome (A : Type) : Type :=
| Ok (a : A)
| Raised (e : exn).
Arguments Ok {A} a.
Arguments Raised {A} e.

Definition M (W A : Type) : Type := W -> outcome A * W.

Definition ret {W A : Type} (a : A) : M W A := fun w => (Ok a, w).

Definition bind {W A B : Type} (c : M W A) (k : A -> M W B) : M W B :=
  fun w =>
    match c w with
    | (Ok a, w') => k a w'
    | (Raised e, w') => (Raised e, w')
    end.

Definition raise {W A : Type} (e : exn) : M W A := fun w => (Raised e, w).

(** The first clause that catches [e] runs its handler; without one the
    exception goes on to the caller. *)
Fixpoint handle {W A : Type} (handlers : list (except_clause * (exn -> M W A)))
    (e : exn) : M W A :=
  match handlers with
  | [] => raise e
  | (c, h) :: rest => if catches c e then h e else handle rest e
  end.

(** [try: body / except ...: ...], the clauses in the order of the source. *)
Definition try_except {W A : Type} (body : M W A)
    (handlers : list (except_clause * (exn -> M W A))) : M W A :=
  fun w =>
    match body w with
    | (Ok a, w') => (Ok a, w')
    | (Raised e, w') => handle handlers e w'
    end.

Definition gets {W A : Type} (f : W -> A) : M W A := fun w => (Ok (f w), w).
Definition modify {W : Type} (f : W -> W) : M W unit := fun w => (Ok tt, f w).

(** A computation that only returns a value when [b] holds. *)
Definition when {W : Type} (b : bool) (c : M W unit) : M W unit :=
  if b then c else ret tt.

(** [for x in l: body x]. *)
Fixpoint for_each {W A : Type} (l : list A) (body : A -> M W unit) : M W unit :=
  match l with
  | [] => ret tt
  | x :: l' => bind (body x) (fun _ => for_each l' body)
  end.

(** A computation that returns from every world. *)
Definition total {W A : Type} (c : M W A) : Prop :=
  forall w, exists a w', c w = (Ok a, w').

(** A call of the environment that never raises an exception outside
    [Exception] (no [KeyboardInterrupt], no [SystemExit]). *)
Definition never_interrupted {S A : Type} (f : S -> outcome A * S) : Prop :=
  forall s e, fst (f s) = Raised e -> class e <> BaseOnly.

Declare Scope py_scope.
Delimit Scope py_scope with py.
Notation "x <- c1 ;; c2" := (bind c1 (fun x => c2))
  (at level 100, c1 at next level, right associativity) : py_scope.
Notation "c1 ;; c2" := (bind c1 (fun _ => c2))
  (at level 100, right associativity) : py_scope.

End PyEff.

(** ** The result artifacts *)

Module Schema.
Import PyFloat PyDict.

Record NetworkInfo := {
  buses : nat;
  branches : nat;
  generators : nat;
  loads : nat
}.

Record Config := {
  contingencies : nat;
  monitored_branches : nat;
  injection_points : nat
}.

(** The [results] dictionary of a benchmark run, also the content of
    [<engine>_results.json].  A timing is a float or [None] (JSON null). *)
Record ResultRecord := {
  timestamp : string;
  package : string;
  network_info : NetworkInfo;
  config : Config;
  timing_ms : dict (option float);
  success_rates : dict string
}.

(** One entry of [comparison_data], a row of the comparison table; the
    fields are the columns ['Test'], ['PowSyBl (ms)'], ['PowerModels.jl (ms)'],
    ['Speedup (PowSyBl/Julia)'] and ['Faster']. *)
Record ComparisonRow := {
  Test : string;
  PowSyBl_ms : string;
  PowerModels_ms : string;
  Speedup : string;
  Faster : string
}.

(** A [pandas.DataFrame] built from a list of row dictionaries. *)
Definition DataFrame : Type := list ComparisonRow.

Record Report := {
  report_timestamp : string;
  powsybl_results : option ResultRecord;
  powermodels_results : option ResultRecord;
  comparison_summary : option (list ComparisonRow)
}.

(** What a file that the scripts read holds: the JSON text of a result
    record, or anything else (the grid model, a truncated or unreadable
    file), for which [json.load] raises an exception with the given text. *)
Inductive file :=
| FResults (r : ResultRecord)
| FOther (err : string).

End Schema.

(** ** [benchmark_powsybl.py] *)

Module BenchmarkPowsybl.
Import PyFloat PyStr PyDict PyEff Schema.
Local Open Scope string_scope.
Local Open Scope py_scope.

(** *** The objects of the solver library

    A network is represented by the indexes of its four data frames, the
    identifiers of its elements in the order the library lists them. *)
Record Network := {
  get_buses : list string;
  get_branches : list string;
  get_generators : list string;
  get_loads : list string
}.

(** [lf.Parameters(distributed_slack=...)]; [None] is the library default. *)
Record Parameters := { distributed_slack : option bool }.

Inductive ComputationStatus :=
| CONVERGED
| MAX_ITERATION_REACHED
| SOLVER_FAILED
| FAILED
| NO_CALCULATION.

Definition status_eqb (a b : ComputationStatus) : bool :=
  match a, b with
  | CONVERGED, CONVERGED
  | MAX_ITERATION_REACHED, MAX_ITERATION_REACHED
  | SOLVER_FAILED, SOLVER_FAILED
  | FAILED, FAILED
  | NO_CALCULATION, NO_CALCULATION => true
  | _, _ => false
  end.

Record PostContingencyResult := { status : ComputationStatus }.

Record SecurityAnalysisResult := {
  post_contingency_results : dict PostContingencyResult
}.

(** A security analysis under construction: the contingencies added so
    far, each the outage of one element. *)
Record SecurityAnalysis := { sa_contingencies : list string }.

Definition create_analysis : SecurityAnalysis := {| sa_contingencies := [] |}.

Definition add_single_element_contingencies
    (elements_ids : list string) (sa : SecurityAnalysis) : SecurityAnalysis :=
  {| sa_contingencies := sa_contingencies sa ++ elements_ids |}.

(** A DC sensitivity analysis under construction: its factor matrices
    (monitored branches against injection variables) and contingencies. *)
Record SensitivityAnalysis := {
  factor_matrices : list (list string * list string);
  sens_contingencies : list string
}.

Definition create_dc_analysis : SensitivityAnalysis :=
  {| factor_matrices := []; sens_contingencies := [] |}.

Definition add_branch_flow_factor_matrix
    (branches_ids variables_ids : list string) (a : SensitivityAnalysis)
    : SensitivityAnalysis :=
  {| factor_matrices := factor_matrices a ++ [(branches_ids, variables_ids)];
     sens_contingencies := sens_contingencies a |}.

Definition add_single_element_contingency
    (element_id : string) (a : SensitivityAnalysis) : SensitivityAnalysis :=
  {| factor_matrices := factor_matrices a;
     sens_contingencies := sens_contingencies a ++ [element_id] |}.

(** A call that reaches the solver. *)
Inductive solver_call :=
| CallRunAC (network : Network) (p : Parameters)
| CallRunDC (network : Network) (p : Parameters)
| CallSecurityRunDC (sa : SecurityAnalysis) (network : Network) (p : Parameters)
| CallSensitivityRun (a : SensitivityAnalysis) (network : Network).

(** The environment of a run: the wall clock and the solver library.  Its
    state [Env] is not known to the script; a solver call returns or raises
    and leaves a new state, in which time has passed. *)
Class Library (Env : Type) := {
  LoadFlowResult : Type;
  SensitivityResult : Type;
  time_time : Env -> float;
  datetime_now_isoformat : Env -> string;
  pn_load : string -> Env -> outcome Network * Env;
  lf_run_ac : Network -> Parameters -> Env -> outcome LoadFlowResult * Env;
  lf_run_dc : Network -> Parameters -> Env -> outcome LoadFlowResult * Env;
  security_run_dc :
    SecurityAnalysis -> Network -> Parameters -> Env -> outcome SecurityAnalysisResult * Env;
  sensitivity_run :
    SensitivityAnalysis -> Network -> Env -> outcome SensitivityResult * Env
}.

(** The world of the script: the environment, what was written to the
    standard output, the solver calls made so far, and the files. *)
Record World (Env : Type) := {
  w_env : Env;
  w_out : list string;
  w_calls : list solver_call;
  w_files : gmap string file
}.
Arguments w_env {Env} w.
Arguments w_out {Env} w.
Arguments w_calls {Env} w.
Arguments w_files {Env} w.

(** *** Sorting identifiers

    [sorted] on strings orders them by code point, which on the bytes of
    the text is the lexicographic order of [String.leb]. *)
Definition str_le (a b : string) : Prop := String.leb a b = true.

#[export] Instance str_le_dec (a b : string) : Decision (str_le a b).
Proof. unfold str_le. apply _. Defined.

Definition sorted (l : list string) : list string := merge_sort str_le l.

(** The selection of element subsets at the top of [main]. *)
Definition contingency_branches (num_contingencies : nat) (branches_index : list string)
    : list string :=
  take num_contingencies (sorted branches_index).

Definition monitored_branches (num_monitored : nat) (branches_index : list string)
    : list string :=
  take num_monitored (sorted branches_index).

Definition injection_points (generators_index loads_index : list string) : list string :=
  take 250 (sorted generators_index) ++ take 250 (sorted loads_index).

(** What the specification asks of a selection: [selected] is the prefix
    of length [n] of a list that holds the candidates in sorted order. *)
Definition is_sorted_prefix (n : nat) (candidates selected : list string) : Prop :=
  exists s, Sorted str_le s /\ s ≡ₚ candidates /\ selected = take n s.

Section Script.
Context {Env : Type} {L : Library Env}.

Definition write (s : string) : M (World Env) unit :=
  modify (fun w => {| w_env := w_env w; w_out := w_out w ++ [s];
                      w_calls := w_calls w; w_files := w_files w |}).

Definition print (s : string) : M (World Env) unit := write (s +:+ newline).

(** A call into the library: it runs on the environment of the world. *)
Definition lib {A : Type} (f : Env -> outcome A * Env) : M (World Env) A :=
  fun w =>
    let (r, env') := f (w_env w) in
    (r, {| w_env := env'; w_out := w_out w; w_calls := w_calls w; w_files := w_files w |}).

Definition solver {A : Type} (c : solver_call) (f : Env -> outcome A * Env)
    : M (World Env) A :=
  modify (fun w => {| w_env := w_env w; w_out := w_out w;
                      w_calls := w_calls w ++ [c]; w_files := w_files w |}) ;;
  lib f.

Definition now : M (World Env) float := gets (fun w => time_time (w_env w)).

Definition json_dump (filename : string) (r : ResultRecord) : M (World Env) unit :=
  modify (fun w => {| w_env := w_env w; w_out := w_out w; w_calls := w_calls w;
                      w_files := <[filename := FResults r]> (w_files w) |}).

(** Time a single operation and return the elapsed time in milliseconds. *)
Definition time_operation {A : Type} (func : M (World Env) A) (description : string)
    : M (World Env) (float * bool * option A) :=
  write (description +:+ "...") ;;
  start_time <- now ;;
  try_except
    (result <- func ;;
     t <- now ;;
     let elapsed := sub t start_time in
     print (" " +:+ format_2f (mul elapsed (of_Z 1000)) +:+ "ms") ;;
     ret (mul elapsed (of_Z 1000), true, Some result))
    [(ExceptException, fun e =>
       t <- now ;;
       let elapsed := sub t start_time in
       print (" FAILED (" +:+ message e +:+ ")") ;;
       ret (mul elapsed (of_Z 1000), false, None))].

(** Run the PTDF analysis for the base case and all contingencies with a
    single analysis object. *)
Definition run_ptdf_analysis (network : Network)
    (contingency_branches monitored_branches injection_points : list string)
    : M (World Env) SensitivityResult :=
  let analysis := create_dc_analysis in
  let analysis :=
    add_branch_flow_factor_matrix monitored_branches injection_points analysis in
  let analysis :=
    fold_left (fun a branch_id => add_single_element_contingency branch_id a)
              contingency_branches analysis in
  result <- solver (CallSensitivityRun analysis network)
                   (sensitivity_run analysis network) ;;
  ret result.

(** The closure [run_security_analysis] of [main]. *)
Definition run_security_analysis (network : Network)
    (contingency_branches : list string) : M (World Env) SecurityAnalysisResult :=
  let sa := create_analysis in
  let sa := add_single_element_contingencies contingency_branches sa in
  let p := {| distributed_slack := Some true |} in
  solver (CallSecurityRunDC sa network p) (security_run_dc sa network p).

Definition set_timing (k : string) (v : option float) (results : ResultRecord)
    : ResultRecord :=
  {| timestamp := timestamp results; package := package results;
     network_info := network_info results; config := config results;
     timing_ms := set k v (timing_ms results);
     success_rates := success_rates results |}.

Definition set_success_rate (k v : string) (results : ResultRecord) : ResultRecord :=
  {| timestamp := timestamp results; package := package results;
     network_info := network_info results; config := config results;
     timing_ms := timing_ms results;
     success_rates := set k v (success_rates results) |}.

(** The number of contingency outcomes whose status is [CONVERGED]. *)
Definition successful_contingencies (sa_result : SecurityAnalysisResult) : nat :=
  length (filter (fun c => status_eqb (status (snd c)) CONVERGED = true)
                 (post_contingency_results sa_result)).

(** [sa_result.post_contingency_results.values()]: the individual
    contingency outcomes. *)
Definition outcomes (sa_result : SecurityAnalysisResult) : list PostContingencyResult :=
  map snd (post_contingency_results sa_result).

(** The count in the words of the specification, to be compared with
    [successful_contingencies]: [spec_converged_count l n] holds when [n]
    of the outcomes [l] have a status equal to the converged status. *)
Inductive spec_converged_count : list PostContingencyResult -> nat -> Prop :=
| spec_count_nil :
    spec_converged_count [] 0
| spec_count_converged (c : PostContingencyResult) (l : list PostContingencyResult) (n : nat) :
    status c = CONVERGED -> spec_converged_count l n ->
    spec_converged_count (c :: l) (S n)
| spec_count_other (c : PostContingencyResult) (l : list PostContingencyResult) (n : nat) :
    status c <> CONVERGED -> spec_converged_count l n ->
    spec_converged_count (c :: l) n.

Definition num_contingencies : nat := 500.
Definition num_monitored : nat := 1000.

(** The four calls of [time_operation] in [main]. *)
Definition timed_ac_power_flow (network : Network)
    : M (World Env) (float * bool * option LoadFlowResult) :=
  time_operation
    (let p := {| distributed_slack := None |} in
     solver (CallRunAC network p) (lf_run_ac network p))
    "1. AC Power Flow".

Definition timed_dc_power_flow (network : Network)
    : M (World Env) (float * bool * option LoadFlowResult) :=
  time_operation
    (let p := {| distributed_slack := Some true |} in
     solver (CallRunDC network p) (lf_run_dc network p))
    "2. DC Power Flow".

Definition timed_contingency_analysis (network : Network) (contingency : list string)
    : M (World Env) (float * bool * option SecurityAnalysisResult) :=
  time_operation
    (run_security_analysis network contingency)
    ("3. DC N-1 Contingency Analysis (" +:+ str_of_nat (length contingency)
       +:+ " contingencies)").

Definition timed_ptdf_calculation (network : Network)
    (contingency monitored injection : list string)
    : M (World Env) (float * bool * option SensitivityResult) :=
  time_operation
    (run_ptdf_analysis network contingency monitored injection)
    ("4. PTDF Matrix Calculation (base + " +:+ str_of_nat (length contingency)
       +:+ " contingencies)").

(** The success rate string of the contingency analysis. *)
Definition success_rate (sa_result : SecurityAnalysisResult) (contingency : list string)
    : string :=
  str_of_nat (successful_contingencies sa_result) +:+ "/"
    +:+ str_of_nat (length contingency).

(** The tests of [main] (from "Test 1" to "Test 4"), from the initial
    [results] on. *)
Definition tests (network : Network)
    (contingency monitored injection : list string) (results : ResultRecord)
    : M (World Env) ResultRecord :=
  (* Test 1: AC power flow *)
  r <- timed_ac_power_flow network ;;
  let '(elapsed, success, _) := r in
  let results := set_timing "ac_power_flow" (if success then Some elapsed else None) results in
  (* Test 2: DC power flow *)
  r <- timed_dc_power_flow network ;;
  let '(elapsed, success, _) := r in
  let results := set_timing "dc_power_flow" (if success then Some elapsed else None) results in
  (* Test 3: DC N-1 contingency analysis *)
  r <- timed_contingency_analysis network contingency ;;
  let '(elapsed, success, sa_result) := r in
  results <-
    (if success then
       match sa_result with
       | Some sa_result =>
           ret (set_success_rate "dc_contingency"
                  (success_rate sa_result contingency) results)
       | None =>
           raise (Exn OtherException
                    "'NoneType' object has no attribute 'post_contingency_results'")
       end
     else ret results) ;;
  let results :=
    set_timing "dc_contingency_analysis" (if success then Some elapsed else None) results in
  (* Test 4: PTDF matrix calculation *)
  r <- timed_ptdf_calculation network contingency monitored injection ;;
  let '(elapsed, success, _) := r in
  let results := set_timing "ptdf_calculation" (if success then Some elapsed else None) results in
  let results :=
    if success then set_success_rate "ptdf" "calculation_completed" results else results in
  ret results.

(** What [main] stores for a timed test: [elapsed if success else None]. *)
Definition recorded {A : Type} (o : float * bool * option A) : option float :=
  let '(elapsed, success, _) := o in if success then Some elapsed else None.

(** The four timed tests run one after the other from the world [w0],
    with outcomes [o1] to [o4], and end in the world [w4]. *)
Definition tests_run (network : Network) (contingency monitored injection : list string)
    (w0 w4 : World Env)
    (o1 o2 : float * bool * option LoadFlowResult)
    (o3 : float * bool * option SecurityAnalysisResult)
    (o4 : float * bool * option SensitivityResult) : Prop :=
  exists w1 w2 w3,
    timed_ac_power_flow network w0 = (Ok o1, w1)
    /\ timed_dc_power_flow network w1 = (Ok o2, w2)
    /\ timed_contingency_analysis network contingency w2 = (Ok o3, w3)
    /\ timed_ptdf_calculation network contingency monitored injection w3 = (Ok o4, w4).

Definition main : M (World Env) unit :=
  print (str_mul "=" 60) ;;
  print " POWSYBL COMPREHENSIVE BENCHMARK" ;;
  print (str_mul "=" 60) ;;
  print "Testing: AC/DC Power Flow, DC Contingency Analysis, PTDF" ;;
  print (newline +:+ "Loading network...") ;;
  network <- lib (pn_load "./Test System/SmallSystem_case.raw") ;;
  let buses := get_buses network in
  let branches := get_branches network in
  let generators := get_generators network in
  let loads := get_loads network in
  print ("Network loaded: " +:+ str_of_nat (length buses) +:+ " buses, "
           +:+ str_of_nat (length branches) +:+ " branches") ;;
  print ("                " +:+ str_of_nat (length generators) +:+ " generators, "
           +:+ str_of_nat (length loads) +:+ " loads") ;;
  let contingency := contingency_branches num_contingencies branches in
  let monitored := monitored_branches num_monitored branches in
  let all_gen_ids := sorted generators in
  let all_load_ids := sorted loads in
  let injection := injection_points generators loads in
  print (newline +:+ "Benchmark Configuration:") ;;
  print ("  Contingencies: " +:+ str_of_nat (length contingency)) ;;
  print ("  Monitored branches: " +:+ str_of_nat (length monitored)) ;;
  print ("  Injection points: " +:+ str_of_nat (length injection) +:+ " ("
           +:+ str_of_nat (length (take 250 all_gen_ids)) +:+ " gens + "
           +:+ str_of_nat (length (take 250 all_load_ids)) +:+ " loads)") ;;
  stamp <- gets (fun w => datetime_now_isoformat (w_env w)) ;;
  let results :=
    {| timestamp := stamp;
       package := "PowSyBl";
       network_info :=
         {| Schema.buses := length buses; Schema.branches := length branches;
            Schema.generators := length generators; Schema.loads := length loads |};
       config :=
         {| Schema.contingencies := length contingency;
            Schema.monitored_branches := length monitored;
            Schema.injection_points := length injection |};
       timing_ms := [];
       success_rates := [] |} in
  print (newline +:+ str_mul "=" 60) ;;
  print " BENCHMARK TESTS" ;;
  print (str_mul "=" 60) ;;
  results <- tests network contingency monitored injection results ;;
  json_dump "powsybl_results.json" results ;;
  print (newline +:+ str_mul "=" 60) ;;
  print " POWSYBL BENCHMARK RESULTS" ;;
  print (str_mul "=" 60) ;;
  for_each (timing_ms results)
    (fun item =>
       match snd item with
       | Some time_ms => print ("  " +:+ fst item +:+ ": " +:+ format_2f time_ms +:+ "ms")
       | None => print ("  " +:+ fst item +:+ ": FAILED")
       end) ;;
  print (newline +:+ "Success Rates:") ;;
  for_each (success_rates results)
    (fun item => print ("  " +:+ fst item +:+ ": " +:+ snd item)) ;;
  print (newline +:+ "Results saved to:") ;;
  print "  - powsybl_results.json (timing data)".

(** The [results] dictionary of [main] before the tests. *)
Definition initial_results (network : Network) (stamp : string) : ResultRecord :=
  {| timestamp := stamp;
     package := "PowSyBl";
     network_info :=
       {| Schema.buses := length (get_buses network);
          Schema.branches := length (get_branches network);
          Schema.generators := length (get_generators network);
          Schema.loads := length (get_loads network) |};
     config :=
       {| Schema.contingencies :=
            length (contingency_branches num_contingencies (get_branches network));
          Schema.monitored_branches :=
            length (monitored_branches num_monitored (get_branches network));
          Schema.injection_points :=
            length (injection_points (get_generators network) (get_loads network)) |};
     timing_ms := [];
     success_rates := [] |}.

End Script.

(** The solver calls of the four tests. *)
Definition four_calls (network : Network) (contingency monitored injection : list string)
    : list solver_call :=
  [CallRunAC network {| distributed_slack := None |};
   CallRunDC network {| distributed_slack := Some true |};
   CallSecurityRunDC {| sa_contingencies := contingency |} network
     {| distributed_slack := Some true |};
   CallSensitivityRun {| factor_matrices := [(monitored, injection)];
                         sens_contingencies := contingency |} network].

End BenchmarkPowsybl.

(** ** [run_comparison.py] *)

Module RunComparison.
Import PyFloat PyStr PyDict PyEff Schema.
Local Open Scope string_scope.
Local Open Scope py_scope.

(** The [CompletedProcess] that [subprocess.run] returns. *)
Record CompletedProcess := {
  returncode : Z;
  stdout : string;
  stderr : string
}.

(** The environment of the comparison script: the operating system with
    its clock and the programs it can launch, and the table printer of
    pandas.  A launched program may write and remove files. *)
Class System (Env : Type) := {
  subprocess_run :
    string -> Env -> gmap string file -> outcome CompletedProcess * Env * gmap string file;
  datetime_now_strftime : Env -> string;
  datetime_now_isoformat : Env -> string;
  to_string : DataFrame -> string
}.

(** The world of the script.  The reports it writes are kept apart from
    the files it reads: a report goes to [benchmark_comparison_<time>.json],
    a name the script never opens for reading. *)
Record World (Env : Type) := {
  w_env : Env;
  w_out : list string;
  w_files : gmap string file;
  w_reports : gmap string Report
}.
Arguments w_env {Env} w.
Arguments w_out {Env} w.
Arguments w_files {Env} w.
Arguments w_reports {Env} w.

(** The fixed scenario keys, in the order of the comparison table. *)
Definition test_names : list string :=
  ["ac_power_flow"; "dc_power_flow"; "dc_contingency_analysis"; "ptdf_calculation"].

(** [d.get(k)] on a timing dictionary: [None] for an absent key and for a
    key that holds null. *)
Definition timing_get (k : string) (d : dict (option float)) : option float :=
  match get k d with
  | Some v => v
  | None => None
  end.

(** The truth value of a loaded document: [None] is false; a result
    record is a dictionary with keys, which is true. *)
Definition truthy (results : option ResultRecord) : bool :=
  match results with
  | Some _ => true
  | None => false
  end.

(** The body of the loop of [compare_timing_results]: the row for one
    test. *)
Definition comparison_row (powsybl_timing powermodels_timing : dict (option float))
    (test_name : string) : ComparisonRow :=
  let powsybl_time := timing_get test_name powsybl_timing in
  let powermodels_time := timing_get test_name powermodels_timing in
  let '(speedup, faster) :=
    match powsybl_time, powermodels_time with
    | Some pt, Some mt =>
        (Some (if negb (eqb mt zero) then div pt mt else inf),
         if ltb mt pt then "PowerModels.jl" else "PowSyBl")
    | _, _ => (None, "N/A")
    end in
  {| Test := title (replace_char "_" " " test_name);
     PowSyBl_ms :=
       match powsybl_time with Some t => format_2f t | None => "FAILED" end;
     PowerModels_ms :=
       match powermodels_time with Some t => format_2f t | None => "FAILED" end;
     Speedup :=
       match speedup with Some s => format_2f s +:+ "x" | None => "N/A" end;
     Faster := faster |}.

(** A run of a program counts as a success when it ended with exit code
    0: the first component of what [run_command] returns. *)
Definition succeeded (r : outcome CompletedProcess) : bool :=
  match r with
  | Ok result => (returncode result =? 0)%Z
  | Raised _ => false
  end.

(** The claimed rule for the row, in the words of the specification:
    [speedup = timeB / timeA], and the label is B when [timeB < timeA] and
    A otherwise. *)
Definition claimed_speedup (timeA timeB : float) : string :=
  format_2f (div timeB timeA) +:+ "x".
Definition claimed_faster (nameA nameB : string) (timeA timeB : float) : string :=
  if ltb timeB timeA then nameB else nameA.

(** Two worlds that differ at most in what was printed. *)
Definition same_store {Env : Type} (w w1 : World Env) : Prop :=
  w_env w1 = w_env w /\ w_files w1 = w_files w /\ w_reports w1 = w_reports w.

(** A computation that returns from every world and changes at most what
    was printed. *)
Definition only_prints {Env A : Type} (c : M (World Env) A) : Prop :=
  forall w, exists a w1, c w = (Ok a, w1) /\ same_store w w1.

(** The table that the comparison makes of two loaded documents. *)
Definition timing_table (a b : option ResultRecord) : option DataFrame :=
  match a, b with
  | Some ra, Some rb => Some (map (comparison_row (timing_ms ra) (timing_ms rb)) test_names)
  | _, _ => None
  end.

(** The name of the report written at the time [timestamp]. *)
Definition report_name (timestamp : string) : string :=
  "benchmark_comparison_" +:+ timestamp +:+ ".json".

(** The record that a file on disk holds, if it holds one. *)
Definition stored_record (files : gmap string file) (filename : string)
    : option ResultRecord :=
  match files !! filename with
  | Some (FResults r) => Some r
  | _ => None
  end.

Section Script.
Context {Env : Type} {sys : System Env}.

Definition write (s : string) : M (World Env) unit :=
  modify (fun w => {| w_env := w_env w; w_out := w_out w ++ [s];
                      w_files := w_files w; w_reports := w_reports w |}).

Definition print (s : string) : M (World Env) unit := write (s +:+ newline).

(** [os.path.exists]. *)
Definition path_exists (path : string) : M (World Env) bool :=
  gets (fun w => bool_decide (is_Some (w_files w !! path))
                 || bool_decide (is_Some (w_reports w !! path))).

(** [os.remove]. *)
Definition remove (path : string) : M (World Env) unit :=
  modify (fun w => {| w_env := w_env w; w_out := w_out w;
                      w_files := delete path (w_files w);
                      w_reports := delete path (w_reports w) |}).

(** [subprocess.run(command, shell=True, capture_output=True, text=True,
    timeout=1800)]. *)
Definition run_subprocess (command : string) : M (World Env) CompletedProcess :=
  fun w =>
    let '(r, env', files') := subprocess_run command (w_env w) (w_files w) in
    (r, {| w_env := env'; w_out := w_out w; w_files := files';
           w_reports := w_reports w |}).

(** [with open(filename, 'r') as f: json.load(f)]. *)
Definition json_load (filename : string) : M (World Env) ResultRecord :=
  fun w =>
    match w_files w !! filename with
    | None => (Raised (Exn FileNotFoundError filename), w)
    | Some (FResults r) => (Ok r, w)
    | Some (FOther err) => (Raised (Exn OtherException err), w)
    end.

(** Run a command and capture its output. *)
Definition run_command (command description : string)
    : M (World Env) (bool * string * string) :=
  print (newline +:+ str_mul "=" 60) ;;
  print (" " +:+ description) ;;
  print (str_mul "=" 60) ;;
  print ("Running: " +:+ command) ;;
  try_except
    (result <- run_subprocess command ;;
     if (returncode result =? 0)%Z then
       print "✅ SUCCESS" ;;
       when (negb (String.eqb (stdout result) "")) (print (stdout result)) ;;
       ret (true, stdout result, stderr result)
     else
       print ("❌ FAILED (exit code: " +:+ pretty (returncode result) +:+ ")") ;;
       when (negb (String.eqb (stderr result) "")) (print ("STDERR: " +:+ stderr result)) ;;
       when (negb (String.eqb (stdout result) "")) (print ("STDOUT: " +:+ stdout result)) ;;
       ret (false, stdout result, stderr result))
    [(ExceptTimeoutExpired, fun _ =>
       print "❌ TIMEOUT (30 minutes)" ;;
       ret (false, "", "Timeout after 30 minutes"));
     (ExceptException, fun e =>
       print ("❌ ERROR: " +:+ message e) ;;
       ret (false, "", message e))].

(** Load a JSON results file. *)
Definition load_json_results (filename : string) : M (World Env) (option ResultRecord) :=
  try_except
    (r <- json_load filename ;;
     ret (Some r))
    [(ExceptFileNotFoundError, fun _ =>
       print ("⚠️  Warning: " +:+ filename +:+ " not found") ;;
       ret None);
     (ExceptException, fun e =>
       print ("⚠️  Warning: Error loading " +:+ filename +:+ ": " +:+ message e) ;;
       ret None)].

(** Compare the timing results of the two packages. *)
Definition compare_timing_results (powsybl_results powermodels_results : option ResultRecord)
    : M (World Env) (option DataFrame) :=
  print (newline +:+ str_mul "=" 60) ;;
  print " TIMING COMPARISON" ;;
  print (str_mul "=" 60) ;;
  match powsybl_results, powermodels_results with
  | Some powsybl_results, Some powermodels_results =>
      let powsybl_timing := timing_ms powsybl_results in
      let powermodels_timing := timing_ms powermodels_results in
      let comparison_data :=
        fold_left
          (fun data test_name =>
             (data ++ [comparison_row powsybl_timing powermodels_timing test_name])%list)
          test_names [] in
      let df : DataFrame := comparison_data in
      print (to_string df) ;;
      ret (Some df)
  | _, _ =>
      print "❌ Cannot compare - missing results files" ;;
      ret None
  end.

(** Compare the success rates of the two packages. *)
Definition compare_success_rates (powsybl_results powermodels_results : option ResultRecord)
    : M (World Env) unit :=
  print (newline +:+ str_mul "=" 60) ;;
  print " SUCCESS RATE COMPARISON" ;;
  print (str_mul "=" 60) ;;
  match powsybl_results, powermodels_results with
  | Some powsybl_results, Some powermodels_results =>
      let powsybl_success := success_rates powsybl_results in
      let powermodels_success := success_rates powermodels_results in
      print "PowSyBl Success Rates:" ;;
      for_each powsybl_success
        (fun item => print ("  " +:+ fst item +:+ ": " +:+ snd item)) ;;
      print (newline +:+ "PowerModels.jl Success Rates:") ;;
      for_each powermodels_success
        (fun item => print ("  " +:+ fst item +:+ ": " +:+ snd item))
  | _, _ =>
      print "❌ Cannot compare - missing results files"
  end.

(** Check for PTDF matrix files (the benchmarks do not save matrices). *)
Definition compare_ptdf_matrices : M (World Env) unit :=
  print (newline +:+ str_mul "=" 60) ;;
  print " PTDF MATRIX COMPARISON" ;;
  print (str_mul "=" 60) ;;
  print "ℹ️  PTDF matrices are not saved to CSV files" ;;
  print "   Benchmarks only measure computation time, not results" ;;
  print "   See timing_ms.ptdf_calculation in JSON results for performance".

(** Save the comprehensive comparison report. *)
Definition save_comparison_report (comparison_df : option DataFrame)
    (powsybl_results powermodels_results : option ResultRecord) : M (World Env) string :=
  timestamp <- gets (fun w => datetime_now_strftime (w_env w)) ;;
  let report_file := "benchmark_comparison_" +:+ timestamp +:+ ".json" in
  stamp <- gets (fun w => datetime_now_isoformat (w_env w)) ;;
  let report :=
    {| report_timestamp := stamp;
       Schema.powsybl_results := powsybl_results;
       Schema.powermodels_results := powermodels_results;
       comparison_summary := comparison_df |} in
  modify (fun w => {| w_env := w_env w; w_out := w_out w; w_files := w_files w;
                      w_reports := <[report_file := report]> (w_reports w) |}) ;;
  print (newline +:+ "📊 Comprehensive comparison report saved to: " +:+ report_file) ;;
  ret report_file.

Definition test_system : string := "./Test System/SmallSystem_case.raw".

Definition main : M (World Env) Z :=
  print "🔍 POWER SYSTEM BENCHMARK COMPARISON" ;;
  print (str_mul "=" 60) ;;
  print "Running comprehensive benchmark comparison between:" ;;
  print "  • PowSyBl (Python)" ;;
  print "  • PowerModels.jl (Julia)" ;;
  print "Analyzing: AC Power Flow, DC Power Flow, DC N-1 Contingency, PTDF" ;;
  (* Check if test system exists *)
  found <- path_exists test_system ;;
  if negb found then
    print ("❌ Test system not found: " +:+ test_system) ;;
    print "Please ensure the test system file exists beforerunning comparison" ;;
    ret 1%Z
  else
    (* Clean up old result files *)
    let old_files := ["powsybl_results.json"; "powermodels_results.json"] in
    print (newline +:+ "🧹 Cleaning up old result files...") ;;
    for_each old_files
      (fun file =>
         present <- path_exists file ;;
         when present (remove file ;; print ("   Removed: " +:+ file))) ;;
    (* Run PowSyBl benchmark *)
    r <- run_command "python3 benchmark_powsybl.py" "RUNNING POWSYBL BENCHMARK" ;;
    let '(success, out, _) := r in
    let powsybl_success := success in
    (* Run PowerModels.jl benchmark *)
    r <- run_command "julia benchmark_powermodels.jl" "RUNNING POWERMODELS.JL BENCHMARK" ;;
    let '(success, out, _) := r in
    let powermodels_success := success in
    (* Load and compare results *)
    print (newline +:+ str_mul "=" 60) ;;
    print " LOADING RESULTS" ;;
    print (str_mul "=" 60) ;;
    powsybl_results <- load_json_results "powsybl_results.json" ;;
    powermodels_results <- load_json_results "powermodels_results.json" ;;
    when (truthy powsybl_results) (print "✅ PowSyBl results loaded") ;;
    when (truthy powermodels_results) (print "✅ PowerModels.jl results loaded") ;;
    (* Perform comparisons *)
    comparison_df <- compare_timing_results powsybl_results powermodels_results ;;
    compare_success_rates powsybl_results powermodels_results ;;
    compare_ptdf_matrices ;;
    (* Save comprehensive report *)
    report_file <- save_comparison_report comparison_df powsybl_results powermodels_results ;;
    (* Final summary *)
    print (newline +:+ str_mul "=" 60) ;;
    print " BENCHMARK COMPARISON COMPLETE" ;;
    print (str_mul "=" 60) ;;
    (if powsybl_success && powermodels_success then
       print "✅ Both benchmarks completed successfully"
     else
       print "⚠️  Some benchmarks failed:" ;;
       when (negb powsybl_success) (print "   ❌ PowSyBl benchmark failed") ;;
       when (negb powermodels_success) (print "   ❌ PowerModels.jl benchmark failed")) ;;
    print (newline +:+ "Results files:") ;;
    for_each ["powsybl_results.json"; "powermodels_results.json"; report_file]
      (fun file =>
         present <- path_exists file ;;
         if present then print ("  ✅ " +:+ file)
         else print ("  ❌ " +:+ file +:+ " (not created)")) ;;
    ret (if powsybl_success && powermodels_success then 0 else 1)%Z.

End Script.

End RunComparison.

(** ** Concrete environments

    Small environments on which the scripts run to the end, used to
    evaluate the definitions. *)

Module Examples.
Import PyFloat PyStr PyDict PyEff Schema.
Local Open Scope string_scope.

(** *** A benchmark run

    The state of the environment is the clock in seconds.  The AC power
    flow takes 2 s, the DC power flow fails after 1 s, the security analysis
    takes 3 s and the sensitivity analysis 4 s. *)
Module Bench.
Import BenchmarkPowsybl.

Definition network : Network :=
  {| get_buses := ["B2"; "B1"; "B3"];
     get_branches := ["L3"; "L1"; "L2"];
     get_generators := ["G2"; "G1"];
     get_loads := ["D1"] |}.

Definition sa_result : SecurityAnalysisResult :=
  {| post_contingency_results :=
       [("L1", {| status := CONVERGED |});
        ("L2", {| status := FAILED |});
        ("L3", {| status := CONVERGED |})] |}.

Definition library : Library Z := {|
  LoadFlowResult := unit;
  SensitivityResult := unit;
  time_time := fun t => of_Z t;
  datetime_now_isoformat := fun _ => "2024-01-01T00:00:00";
  pn_load := fun _ t => (Ok network, t);
  lf_run_ac := fun _ _ t => (Ok tt, (t + 2)%Z);
  lf_run_dc := fun _ _ t => (Raised (Exn OtherException "diverged"), (t + 1)%Z);
  security_run_dc := fun _ _ _ t => (Ok sa_result, (t + 3)%Z);
  sensitivity_run := fun _ _ t => (Ok tt, (t + 4)%Z)
|}.

Definition world : World Z :=
  {| w_env := 100%Z; w_out := []; w_calls := []; w_files := ∅ |}.

(** An operation that fails after one second. *)
Definition failing : M (World Z) (LoadFlowResult (Library := library)) :=
  solver (CallRunDC network {| distributed_slack := Some true |})
         (lf_run_dc (Library := library) network {| distributed_slack := Some true |}).

(** An operation that returns after two seconds. *)
Definition passing : M (World Z) (LoadFlowResult (Library := library)) :=
  solver (CallRunAC network {| distributed_slack := None |})
         (lf_run_ac (Library := library) network {| distributed_slack := None |}).

(** An operation interrupted from the keyboard. *)
Definition interrupted : M (World Z) unit :=
  raise (Exn BaseOnly "KeyboardInterrupt").

(** An operation that fails after the system clock was set back by five
    seconds. *)
Definition failing_after_clock_set_back : M (World Z) unit :=
  fun w => (Raised (Exn OtherException "diverged"),
            {| w_env := (w_env w - 5)%Z; w_out := w_out w;
               w_calls := w_calls w; w_files := w_files w |}).

(** A library whose loader does not find the grid model. *)
Definition library_without_model : Library Z := {|
  LoadFlowResult := unit;
  SensitivityResult := unit;
  time_time := fun t => of_Z t;
  datetime_now_isoformat := fun _ => "2024-01-01T00:00:00";
  pn_load := fun _ t => (Raised (Exn OtherException "file not found"), t);
  lf_run_ac := fun _ _ t => (Ok tt, (t + 2)%Z);
  lf_run_dc := fun _ _ t => (Ok tt, (t + 1)%Z);
  security_run_dc := fun _ _ _ t => (Ok sa_result, (t + 3)%Z);
  sensitivity_run := fun _ _ t => (Ok tt, (t + 4)%Z)
|}.

End Bench.

(** *** A comparison run *)
Module Compare.
Import RunComparison.

Definition record (name : string) (timing : dict (option float)) : ResultRecord :=
  {| timestamp := "2024-01-01T00:00:00";
     package := name;
     network_info := {| buses := 3; branches := 3; generators := 2; loads := 1 |};
     config := {| contingencies := 3; monitored_branches := 3; injection_points := 3 |};
     timing_ms := timing;
     success_rates := [] |}.

(** The records of the scenario of the specification: one engine with
    [ac_power_flow = 100] and [dc_power_flow = 50], the other with
    [ac_power_flow = 400] and no [dc_power_flow]. *)
Definition timing_100_50 : dict (option float) :=
  [("ac_power_flow", Some (of_Z 100)); ("dc_power_flow", Some (of_Z 50))].
Definition timing_400 : dict (option float) :=
  [("ac_power_flow", Some (of_Z 400))].

(** Both engines took 100 ms. *)
Definition timing_tie : dict (option float) :=
  [("ac_power_flow", Some (of_Z 100))].

(** A denominator of zero. *)
Definition timing_zero : dict (option float) :=
  [("ac_power_flow", Some zero)].

(** Both programs exit with code 0 and write nothing. *)
Definition quiet_system : System unit := {|
  subprocess_run := fun _ env files =>
    (Ok {| returncode := 0; stdout := ""; stderr := "" |}, env, files);
  datetime_now_strftime := fun _ => "20240101_000000";
  datetime_now_isoformat := fun _ => "2024-01-01T00:00:00";
  to_string := fun _ => "table"
|}.

(** The PowSyBl program exits with code 1 and writes nothing; the
    PowerModels.jl program writes its results and exits with code 0. *)
Definition julia_only_system : System unit := {|
  subprocess_run := fun command env files =>
    if String.eqb command "julia benchmark_powermodels.jl" then
      (Ok {| returncode := 0; stdout := ""; stderr := "" |}, env,
       <["powermodels_results.json" := FResults (record "PowerModels.jl" timing_100_50)]>
         files)
    else
      (Ok {| returncode := 1; stdout := ""; stderr := "No module named pypowsybl" |},
       env, files);
  datetime_now_strftime := fun _ => "20240101_000000";
  datetime_now_isoformat := fun _ => "2024-01-01T00:00:00";
  to_string := fun _ => "table"
|}.

(** A system whose state is the time in seconds; the programs do as in
    [quiet_system]. *)
Definition clock_system : System Z := {|
  subprocess_run := fun _ env files =>
    (Ok {| returncode := 0; stdout := ""; stderr := "" |}, env, files);
  datetime_now_strftime := fun t => pretty t;
  datetime_now_isoformat := fun t => pretty t;
  to_string := fun _ => "table"
|}.

(** A program that does not end within the timeout. *)
Definition slow_system : System unit := {|
  subprocess_run := fun _ env files =>
    (Raised (Exn TimeoutExpired "timed out after 1800 seconds"), env, files);
  datetime_now_strftime := fun _ => "20240101_000000";
  datetime_now_isoformat := fun _ => "2024-01-01T00:00:00";
  to_string := fun _ => "table"
|}.

(** Nothing is on disk. *)
Definition empty_world : World unit :=
  {| w_env := tt; w_out := []; w_files := ∅; w_reports := ∅ |}.

(** Only the grid model is on disk. *)
Definition world : World unit :=
  {| w_env := tt; w_out := [];
     w_files := {[ test_system := FOther "not JSON" ]};
     w_reports := ∅ |}.

(** The grid model and the results of PowerModels.jl are on disk, the
    results of PowSyBl are not. *)
Definition world_one_artifact : World unit :=
  {| w_env := tt; w_out := [];
     w_files := {[ test_system := FOther "not JSON";
                   "powermodels_results.json" :=
                     FResults (record "PowerModels.jl" timing_100_50) ]};
     w_reports := ∅ |}.

End Compare.

End Examples.

(** ** Sign of a rounded result

    Rounding never changes the sign of a number: the facts below follow
    the rounding pipeline of [SpecFloat] ([shr_1], [shr], [shr_fexp],
    [round_nearest_even], [binary_round_aux]). *)

Module PyFloatFacts.
Import PyFloat.

Lemma iter_pos_invariant {A : Type} (f : A -> A) (P : A -> Prop) :
  (forall x, P x -> P (f x)) ->
  forall n x, P x -> P (SpecFloat.iter_pos f n x).
Proof.
  intros Hf n. induction n as [n IH|n IH|]; intros x Hx; simpl.
  - apply IH, IH, Hf, Hx.
  - apply IH, IH, Hx.
  - apply Hf, Hx.
Qed.

Lemma shr_1_nonneg (mrs : shr_record) :
  0 <= shr_m mrs -> 0 <= shr_m (shr_1 mrs).
Proof.
  destruct mrs as [m r s]. simpl.
  destruct m as [|[p|p|]|[p|p|]]; simpl; lia.
Qed.

Lemma shr_nonneg (mrs : shr_record) (e n : Z) :
  0 <= shr_m mrs -> 0 <= shr_m (fst (shr mrs e n)).
Proof.
  intros H. unfold shr. destruct n as [|p|p]; simpl; try assumption.
  apply (iter_pos_invariant shr_1 (fun x => 0 <= shr_m x)); auto using shr_1_nonneg.
Qed.

Lemma shr_record_of_loc_m (m : Z) (l : location) :
  shr_m (shr_record_of_loc m l) = m.
Proof. destruct l as [|[]]; reflexivity. Qed.

Lemma shr_fexp_nonneg (m e : Z) (l : location) :
  0 <= m -> 0 <= shr_m (fst (shr_fexp prec emax m e l)).
Proof.
  intros H. unfold shr_fexp. apply shr_nonneg.
  now rewrite shr_record_of_loc_m.
Qed.

Lemma round_nearest_even_nonneg (m : Z) (l : location) :
  0 <= m -> 0 <= round_nearest_even m l.
Proof.
  intros H. unfold round_nearest_even.
  destruct l as [|[]]; try destruct (Z.even m); lia.
Qed.

Lemma binary_round_aux_sign (sx : bool) (mx ex : Z) (lx : location) :
  0 <= mx -> has_sign sx (binary_round_aux prec emax sx mx ex lx).
Proof.
  intros H. unfold binary_round_aux.
  pose proof (shr_fexp_nonneg mx ex lx H) as H1.
  destruct (shr_fexp prec emax mx ex lx) as [mrs' e'] eqn:E1. simpl in H1.
  pose proof (shr_fexp_nonneg _ e' loc_Exact
                (round_nearest_even_nonneg _ (loc_of_shr_record mrs') H1)) as H2.
  destruct (shr_fexp prec emax (round_nearest_even _ _) e' loc_Exact) as [mrs'' e''].
  simpl in H2.
  destruct (shr_m mrs'') as [|p|p]; simpl; try reflexivity; try lia.
  destruct (e'' <=? emax - prec); reflexivity.
Qed.

Lemma binary_round_sign (sx : bool) (mx : positive) (ex : Z) :
  has_sign sx (binary_round prec emax sx mx ex).
Proof.
  unfold binary_round.
  destruct (shl_align mx ex _) as [mz ez].
  apply binary_round_aux_sign. lia.
Qed.

Lemma binary_normalize_nonneg (m e : Z) (sz : bool) :
  0 <= m -> leb zero (binary_normalize prec emax m e sz) = true.
Proof.
  intros H. destruct m as [|p|p]; simpl; try reflexivity; try lia.
  pose proof (binary_round_sign false p e) as Hs.
  destruct (binary_round prec emax false p e) as [s|s| |s m' e'];
    simpl in Hs; subst; try reflexivity; contradiction.
Qed.

(** [leb zero x] reads the sign class. *)
Lemma leb_zero_sign (x : float) : has_sign false x -> leb zero x = true.
Proof. destruct x; simpl; intros; subst; try reflexivity; contradiction. Qed.

(** *** Order of canonical mantissas

    A finite binary64 number has a canonical mantissa ([bounded]); then the
    exponent-first comparison of [SFcompare] is the comparison of the two
    mantissas aligned to the smaller exponent, which is how [SFsub]
    subtracts. *)

Lemma digits2_pos_bounds (p : positive) :
  2 ^ (Z.pos (digits2_pos p) - 1) <= Z.pos p < 2 ^ Z.pos (digits2_pos p).
Proof.
  induction p as [p IH|p IH|]; simpl digits2_pos.
  - rewrite Pos2Z.inj_succ.
    replace (Z.succ (Z.pos (digits2_pos p)) - 1) with (Z.succ (Z.pos (digits2_pos p) - 1)) by lia.
    rewrite !Z.pow_succ_r by lia. lia.
  - rewrite Pos2Z.inj_succ.
    replace (Z.succ (Z.pos (digits2_pos p)) - 1) with (Z.succ (Z.pos (digits2_pos p) - 1)) by lia.
    rewrite !Z.pow_succ_r by lia. lia.
  - simpl. lia.
Qed.

Lemma iter_xO_pow (m d : positive) :
  Z.pos (Pos.iter xO m d) = Z.pos m * 2 ^ Z.pos d.
Proof.
  induction d as [|d IH] using Pos.peano_ind.
  - simpl. lia.
  - rewrite Pos.iter_succ, Pos2Z.inj_xO, IH, Pos2Z.inj_succ, Z.pow_succ_r by lia. lia.
Qed.

Lemma shl_align_fst (m : positive) (e ez : Z) :
  ez <= e -> Z.pos (fst (shl_align m e ez)) = Z.pos m * 2 ^ (e - ez).
Proof.
  intros H. unfold shl_align.
  destruct (ez - e) as [|d|d] eqn:E; simpl.
  - replace (e - ez) with 0 by lia. lia.
  - lia.
  - rewrite iter_xO_pow. f_equal. f_equal. lia.
Qed.

Lemma bounded_digits (m : positive) (e : Z) :
  bounded prec emax m e = true ->
  Z.pos (digits2_pos m) <= prec /\
  SpecFloat.emin prec emax <= e /\
  (SpecFloat.emin prec emax < e -> Z.pos (digits2_pos m) = prec).
Proof.
  unfold bounded, canonical_mantissa, fexp. intros H.
  apply andb_prop in H as [H _]. apply Z.eqb_eq in H. lia.
Qed.

Lemma aligned_lt (m1 m2 : positive) (e1 e2 : Z) :
  bounded prec emax m1 e1 = true -> bounded prec emax m2 e2 = true ->
  e1 < e2 -> Z.pos m1 < Z.pos m2 * 2 ^ (e2 - e1).
Proof.
  intros B1 B2 Hlt.
  destruct (bounded_digits _ _ B1) as (D1 & E1 & _).
  destruct (bounded_digits _ _ B2) as (_ & _ & D2).
  specialize (D2 ltac:(lia)).
  pose proof (digits2_pos_bounds m1) as [_ U1].
  pose proof (digits2_pos_bounds m2) as [L2 _].
  rewrite D2 in L2.
  assert (2 ^ Z.pos (digits2_pos m1) <= 2 ^ prec) by (apply Z.pow_le_mono_r; lia).
  assert (2 ^ 1 <= 2 ^ (e2 - e1)) by (apply Z.pow_le_mono_r; lia).
  assert (2 ^ prec = 2 ^ (prec - 1) * 2 ^ 1) by reflexivity.
  nia.
Qed.

(** The difference of the aligned mantissas of [y] and [x] has the sign of
    the comparison of [x] with [y]. *)
Lemma aligned_diff_nonneg (sx sy : bool) (mx my : positive) (ex ey : Z) :
  bounded prec emax mx ex = true -> bounded prec emax my ey = true ->
  leb (S754_finite sx mx ex) (S754_finite sy my ey) = true ->
  0 <= cond_Zopp sy (Z.pos (fst (shl_align my ey (Z.min ey ex))))
       - cond_Zopp sx (Z.pos (fst (shl_align mx ex (Z.min ey ex)))).
Proof.
  intros Bx By Hle.
  rewrite !shl_align_fst by lia.
  assert (Hp : forall (m : positive) (k : Z), 0 < Z.pos m * 2 ^ k \/ k < 0).
  { intros m k. destruct (Z_lt_le_dec k 0); [now right|left].
    assert (0 < 2 ^ k) by (apply Z.pow_pos_nonneg; lia). nia. }
  assert (Hx : 0 < Z.pos mx * 2 ^ (ex - Z.min ey ex)) by (destruct (Hp mx (ex - Z.min ey ex)); lia).
  assert (Hy : 0 < Z.pos my * 2 ^ (ey - Z.min ey ex)) by (destruct (Hp my (ey - Z.min ey ex)); lia).
  unfold leb, SFleb, SFcompare in Hle.
  destruct sx, sy; simpl; try discriminate; try lia.
  - (* both negative *)
    destruct (Z.compare_spec ex ey) as [E|E|E]; try discriminate.
    + subst ey. rewrite Z.min_id, Z.sub_diag, !Z.mul_1_r in *.
      rewrite Pos.compare_cont_spec in Hle. simpl in Hle.
      destruct (Pos.compare_spec mx my); simpl in Hle; try discriminate; lia.
    + pose proof (aligned_lt _ _ _ _ By Bx E).
      replace (Z.min ey ex) with ey by lia.
      rewrite Z.sub_diag, Z.mul_1_r. lia.
  - (* both positive *)
    destruct (Z.compare_spec ex ey) as [E|E|E]; try discriminate.
    + subst ey. rewrite Z.min_id, Z.sub_diag, !Z.mul_1_r in *.
      rewrite Pos.compare_cont_spec in Hle. simpl in Hle.
      destruct (Pos.compare_spec mx my); simpl in Hle; try discriminate; lia.
    + pose proof (aligned_lt _ _ _ _ Bx By E).
      replace (Z.min ey ex) with ex by lia.
      rewrite Z.sub_diag, Z.mul_1_r. lia.
Qed.

(** The difference of two finite floats in increasing order is not
    negative, whatever the rounding did. *)
Lemma sub_nonneg (x y : float) :
  is_finite x = true -> is_finite y = true -> leb x y = true ->
  leb zero (sub y x) = true.
Proof.
  intros Fx Fy Hle.
  destruct x as [sx|sx| |sx mx ex], y as [sy|sy| |sy my ey];
    try discriminate; simpl in Fx, Fy.
  - destruct sx, sy; reflexivity.
  - destruct sy; [discriminate|reflexivity].
  - destruct sx; [reflexivity|discriminate].
  - unfold sub, SFsub. apply binary_normalize_nonneg.
    now apply aligned_diff_nonneg.
Qed.

(** Scaling by a positive constant keeps the sign. *)
Lemma mul_pos_nonneg (d : float) (m : positive) (e : Z) :
  leb zero d = true -> leb zero (mul d (S754_finite false m e)) = true.
Proof.
  intros H. destruct d as [s|s| |s md ed]; try discriminate.
  - reflexivity.
  - destruct s; [discriminate|reflexivity].
  - destruct s; [discriminate|].
    unfold mul, SFmul. apply leb_zero_sign.
    change (xorb false false) with false.
    apply binary_round_aux_sign. lia.
Qed.

End PyFloatFacts.


(** ** Sequencing *)

Module PyEffFacts.
Import PyEff.

(** A sequence that returns has run both of its parts. *)
Lemma bind_Ok {W A B : Type} (c : M W A) (k : A -> M W B) (w w' : W) (b : B) :
  bind c k w = (Ok b, w') ->
  exists a w1, c w = (Ok a, w1) /\ k a w1 = (Ok b, w').
Proof.
  unfold bind. destruct (c w) as [[a|e] w1]; intros Hk.
  - now exists a, w1.
  - discriminate.
Qed.

Lemma bind_step {W A B : Type} (c : M W A) (k : A -> M W B) (w w1 : W) (a : A) :
  c w = (Ok a, w1) -> bind c k w = k a w1.
Proof. unfold bind. now intros ->. Qed.

Lemma bind_cases {W A B : Type} (c : M W A) (k : A -> M W B) (w : W) :
  bind c k w
  = match c w with
    | (Ok a, w1) => k a w1
    | (Raised e, w1) => (Raised e, w1)
    end.
Proof. reflexivity. Qed.

Lemma bind_assoc {W A B C : Type} (c : M W A) (k1 : A -> M W B) (k2 : B -> M W C)
    (w : W) :
  bind (bind c k1) k2 w = bind c (fun a => bind (k1 a) k2) w.
Proof. unfold bind. destruct (c w) as [[a|e] w1]; reflexivity. Qed.

(** A loop whose body keeps a property of the world keeps it. *)
Lemma for_each_invariant {W A : Type} (P : W -> Prop) (body : A -> M W unit) :
  (forall x w, P w -> P (snd (body x w))) ->
  forall l w, P w -> P (snd (for_each l body w)).
Proof.
  intros Hb l. induction l as [|x l IH]; intros w Hw; simpl; auto.
  unfold bind. specialize (Hb x w Hw).
  destruct (body x w) as [[u|e] w1]; simpl in *; auto.
Qed.

(** A loop whose body always returns returns. *)
Lemma for_each_returns {W A : Type} (body : A -> M W unit) :
  (forall x w, fst (body x w) = Ok tt) ->
  forall l w, fst (for_each l body w) = Ok tt.
Proof.
  intros Hb l. induction l as [|x l IH]; intros w; simpl; auto.
  unfold bind. specialize (Hb x w).
  destruct (body x w) as [[u|e] w1]; simpl in *; [apply IH|discriminate].
Qed.

Lemma total_ret {W A : Type} (a : A) : total (ret (W := W) a).
Proof. intros w. now exists a, w. Qed.

Lemma total_modify {W : Type} (f : W -> W) : total (modify f).
Proof. intros w. now exists tt, (f w). Qed.

Lemma total_gets {W A : Type} (f : W -> A) : total (gets f).
Proof. intros w. now exists (f w), w. Qed.

Lemma total_bind {W A B : Type} (c : M W A) (k : A -> M W B) :
  total c -> (forall a, total (k a)) -> total (bind c k).
Proof.
  intros Hc Hk w. destruct (Hc w) as (a & w1 & E).
  unfold bind. rewrite E. apply Hk.
Qed.

Lemma total_when {W : Type} (b : bool) (c : M W unit) : total c -> total (when b c).
Proof. destruct b; simpl; auto using total_ret. Qed.

Lemma total_for_each {W A : Type} (l : list A) (body : A -> M W unit) :
  (forall x, total (body x)) -> total (for_each l body).
Proof.
  intros Hb. induction l as [|x l IH]; simpl.
  - apply total_ret.
  - apply total_bind; auto.
Qed.

(** A sequence returns [v] when its first part returns and what follows
    returns [v] whatever the first part left. *)
Lemma bind_returns {W A B : Type} (c : M W A) (k : A -> M W B) (v : B) (w : W) :
  total c ->
  (forall a w1, exists w', k a w1 = (Ok v, w')) ->
  exists w', bind c k w = (Ok v, w').
Proof.
  intros Hc Hk. destruct (Hc w) as (a & w1 & E).
  unfold bind. rewrite E. apply Hk.
Qed.

End PyEffFacts.

(** ** Properties of [benchmark_powsybl.py] *)

Module BenchmarkFacts.
Import PyFloat PyStr PyDict PyEff Schema BenchmarkPowsybl.
Local Open Scope string_scope.

(** *** The order on identifiers *)

Lemma ascii_compare_refl (a : ascii) : Ascii.compare a a = Eq.
Proof. unfold Ascii.compare. apply N.compare_refl. Qed.

Lemma ascii_compare_lt_trans (a b c : ascii) :
  Ascii.compare a b = Lt -> Ascii.compare b c = Lt -> Ascii.compare a c = Lt.
Proof.
  unfold Ascii.compare. rewrite !N.compare_lt_iff. apply N.lt_trans.
Qed.

Lemma leb_trans (s1 s2 s3 : string) :
  String.leb s1 s2 = true -> String.leb s2 s3 = true -> String.leb s1 s3 = true.
Proof.
  revert s2 s3. induction s1 as [|a s1 IH]; intros [|b s2] [|c s3];
    unfold String.leb; simpl; try congruence.
  specialize (IH s2 s3). unfold String.leb in IH.
  destruct (Ascii.compare a b) eqn:Eab; try congruence;
    destruct (Ascii.compare b c) eqn:Ebc; try congruence.
  - apply Ascii.compare_eq_iff in Eab, Ebc. subst.
    rewrite ascii_compare_refl. exact IH.
  - apply Ascii.compare_eq_iff in Eab. subst. now rewrite Ebc.
  - apply Ascii.compare_eq_iff in Ebc. subst. now rewrite Eab.
  - now rewrite (ascii_compare_lt_trans _ _ _ Eab Ebc).
Qed.

#[local] Instance str_le_trans : Transitive str_le.
Proof. intros x y z. apply leb_trans. Qed.

#[local] Instance str_le_antisym : AntiSymm (=) str_le.
Proof. intros x y. apply String.leb_antisym. Qed.

#[local] Instance str_le_total : Total str_le.
Proof. intros x y. apply String.leb_total. Qed.

Lemma sorted_Sorted (l : list string) : Sorted str_le (sorted l).
Proof. apply Sorted_merge_sort, _. Qed.

Lemma sorted_Permutation (l : list string) : sorted l ≡ₚ l.
Proof. apply merge_sort_Permutation. Qed.

(** Two sorted lists of the same candidates are the same list. *)
Lemma sorted_prefix_unique (n : nat) (l l' s s' : list string) :
  l ≡ₚ l' -> is_sorted_prefix n l s -> is_sorted_prefix n l' s' -> s = s'.
Proof.
  intros Hp (t & St & Pt & ->) (t' & St' & Pt' & ->).
  f_equal. apply (Sorted_unique str_le); auto.
  now rewrite Pt, Pt'.
Qed.

Lemma take_sorted_prefix (n : nat) (l : list string) :
  is_sorted_prefix n l (take n (sorted l)).
Proof.
  exists (sorted l). auto using sorted_Sorted, sorted_Permutation.
Qed.

(** C7. The selections of [main] are prefixes of the sorted identifier
    lists (the injection points are one such prefix of the generators
    followed by one of the loads), and they depend on the candidates only:
    candidate lists with the same identifiers in another order, and the
    same sizes, give the same ordered selections. *)
Theorem subset_selection_deterministic
    (n_cont n_mon : nat)
    (branches branches' gens gens' loads loads' : list string) :
  branches ≡ₚ branches' -> gens ≡ₚ gens' -> loads ≡ₚ loads' ->
  is_sorted_prefix n_cont branches (contingency_branches n_cont branches)
  /\ is_sorted_prefix n_mon branches (monitored_branches n_mon branches)
  /\ (exists g l, is_sorted_prefix 250 gens g /\ is_sorted_prefix 250 loads l
                  /\ injection_points gens loads = g ++ l)%list
  /\ contingency_branches n_cont branches = contingency_branches n_cont branches'
  /\ monitored_branches n_mon branches = monitored_branches n_mon branches'
  /\ injection_points gens loads = injection_points gens' loads'.
Proof.
  intros Hb Hg Hl.
  unfold contingency_branches, monitored_branches, injection_points.
  repeat split; try apply take_sorted_prefix.
  - exists (take 250 (sorted gens)), (take 250 (sorted loads)).
    auto using take_sorted_prefix.
  - apply (sorted_prefix_unique n_cont branches branches'); auto using take_sorted_prefix.
  - apply (sorted_prefix_unique n_mon branches branches'); auto using take_sorted_prefix.
  - f_equal.
    + apply (sorted_prefix_unique 250 gens gens'); auto using take_sorted_prefix.
    + apply (sorted_prefix_unique 250 loads loads'); auto using take_sorted_prefix.
Qed.

Lemma subset_selection_deterministic_witness :
  contingency_branches 2 ["L3"; "L1"; "L2"] = contingency_branches 2 ["L2"; "L3"; "L1"]
  /\ contingency_branches 2 ["L3"; "L1"; "L2"] = ["L1"; "L2"].
Proof.
  split; [|reflexivity].
  apply (subset_selection_deterministic 2 2
           ["L3"; "L1"; "L2"] ["L2"; "L3"; "L1"] ["G2"; "G1"] ["G1"; "G2"] ["D1"] ["D1"]).
  - etransitivity; [apply perm_skip, perm_swap | apply perm_swap].
  - apply perm_swap.
  - reflexivity.
Defined.

(** *** One analysis object, one solver call *)

Lemma fold_add_contingencies (ids : list string) (a : SensitivityAnalysis) :
  fold_left (fun a branch_id => add_single_element_contingency branch_id a) ids a
  = {| factor_matrices := factor_matrices a;
       sens_contingencies := (sens_contingencies a ++ ids)%list |}.
Proof.
  revert a. induction ids as [|x ids IH]; intros a; simpl.
  - rewrite app_nil_r. now destruct a.
  - rewrite IH. simpl. now rewrite <- app_assoc.
Qed.

Section WithLibrary.
Context {Env : Type} {L : Library Env}.

(** C9. Whatever the number of contingencies, the PTDF scenario makes one
    call to the solver, on one analysis object that holds the factor
    matrix and every contingency, and returns what that call returns; the
    contingency scenario likewise makes one call on one analysis object
    that holds every contingency. *)
Theorem scenarios_submit_one_batch (network : Network)
    (contingency monitored injection : list string) (w : World Env) :
  let analysis := {| factor_matrices := [(monitored, injection)];
                     sens_contingencies := contingency |} in
  let sa := {| sa_contingencies := contingency |} in
  let p := {| distributed_slack := Some true |} in
  (w_calls (snd (run_ptdf_analysis network contingency monitored injection w))
     = (w_calls w ++ [CallSensitivityRun analysis network])%list
   /\ fst (run_ptdf_analysis network contingency monitored injection w)
     = fst (sensitivity_run analysis network (w_env w)))
  /\ (w_calls (snd (run_security_analysis network contingency w))
     = (w_calls w ++ [CallSecurityRunDC sa network p])%list
   /\ fst (run_security_analysis network contingency w)
     = fst (security_run_dc sa network p (w_env w))).
Proof.
  intros analysis sa p. split.
  - unfold run_ptdf_analysis. rewrite fold_add_contingencies. simpl.
    fold analysis.
    unfold solver, lib, bind, modify, ret. simpl.
    destruct (sensitivity_run analysis network (w_env w)) as [[r|e] env']; simpl; auto.
  - unfold run_security_analysis, create_analysis, add_single_element_contingencies.
    simpl. fold sa. fold p.
    unfold solver, lib, bind, modify. simpl.
    destruct (security_run_dc sa network p (w_env w)) as [[r|e] env']; simpl; auto.
Qed.

(** *** The timed operation runner *)

(** C3, as amended.  An operation that raises an instance of [Exception]
    (what [except Exception] catches: every class but those that derive
    from [BaseException] only) makes [time_operation] return, not raise:
    the result is the difference of the two readings of [time.time()]
    times 1000, [False] and [None].  That duration is not negative when
    the two readings are finite and the reading after the failure is not
    before the reading at the start; [time.time()] is the wall clock, so
    the premise is needed.  An operation that returns makes
    [time_operation] return the duration, [True] and the result of the
    operation. *)
Theorem time_operation_isolates_failure {A : Type}
    (func : M (World Env) A) (description : string) (w w1 : World Env) :
  let w0 := {| w_env := w_env w; w_out := (w_out w ++ [description +:+ "..."])%list;
               w_calls := w_calls w; w_files := w_files w |} in
  let start_time := time_time (w_env w) in
  let end_time := time_time (w_env w1) in
  let ms := mul (sub end_time start_time) (of_Z 1000) in
  (forall e, func w0 = (Raised e, w1) -> class e <> BaseOnly ->
     (exists w2, time_operation func description w = (Ok (ms, false, None), w2))
     /\ (is_finite start_time = true -> is_finite end_time = true ->
         leb start_time end_time = true -> leb zero ms = true))
  /\ (forall a, func w0 = (Ok a, w1) ->
        exists w2, time_operation func description w = (Ok (ms, true, Some a), w2)).
Proof.
  intros w0 start_time end_time ms. split.
  - intros e Hf He. split.
    + unfold time_operation, write, now, gets, modify, try_except, bind. simpl.
      fold w0. rewrite Hf.
      destruct e as [[] text]; simpl in *; try congruence;
        unfold print, write, modify, ret, bind; simpl; eauto.
    + intros F0 F1 Hle. unfold ms.
      apply PyFloatFacts.mul_pos_nonneg.
      now apply PyFloatFacts.sub_nonneg.
  - intros a Hf.
    unfold time_operation, write, now, gets, modify, try_except, bind. simpl.
    fold w0. rewrite Hf. simpl. unfold ret. eauto.
Qed.

(** *** The result record *)

Lemma print_Ok (s : string) (w w1 : World Env) (u : unit) :
  print s w = (Ok u, w1) ->
  w_env w1 = w_env w /\ w_calls w1 = w_calls w /\ w_files w1 = w_files w.
Proof. unfold print, write, modify. intros [= <- <-]. auto. Qed.

Lemma for_each_print_files {A : Type} (l : list A) (line : A -> string) (w : World Env) :
  w_files (snd (for_each l (fun x => print (line x)) w)) = w_files w.
Proof.
  apply (PyEffFacts.for_each_invariant (fun w1 => w_files w1 = w_files w)); auto.
Qed.

(** What [tests] returns, in terms of the four timed calls. *)
Lemma tests_Ok (network : Network) (contingency monitored injection : list string)
    (results r : ResultRecord) (w0 w4 : World Env) :
  tests network contingency monitored injection results w0 = (Ok r, w4) ->
  exists o1 o2 o3 o4,
    tests_run network contingency monitored injection w0 w4 o1 o2 o3 o4
    /\ timing_ms r =
         set "ptdf_calculation" (recorded o4)
           (set "dc_contingency_analysis" (recorded o3)
              (set "dc_power_flow" (recorded o2)
                 (set "ac_power_flow" (recorded o1) (timing_ms results))))
    /\ (exists rates,
          match o3 with
          | (_, true, Some sa_result) =>
              rates = set "dc_contingency" (success_rate sa_result contingency)
                          (success_rates results)
          | (_, true, None) => False
          | (_, false, _) => rates = success_rates results
          end
          /\ success_rates r =
               if snd (fst o4) then set "ptdf" "calculation_completed" rates else rates).
Proof.
  unfold tests. intros Ht.
  apply PyEffFacts.bind_Ok in Ht as ([[e1 s1] p1] & w1 & H1 & Ht).
  apply PyEffFacts.bind_Ok in Ht as ([[e2 s2] p2] & w2 & H2 & Ht).
  apply PyEffFacts.bind_Ok in Ht as ([[e3 s3] p3] & w3 & H3 & Ht).
  apply PyEffFacts.bind_Ok in Ht as (r3 & w3' & Hr & Ht).
  apply PyEffFacts.bind_Ok in Ht as ([[e4 s4] p4] & w4' & H4 & Ht).
  assert (w3' = w3 /\
          match s3, p3 with
          | true, Some sa_result =>
              r3 = set_success_rate "dc_contingency" (success_rate sa_result contingency)
                     (set_timing "dc_power_flow" (if s2 then Some e2 else None)
                        (set_timing "ac_power_flow" (if s1 then Some e1 else None) results))
          | true, None => False
          | false, _ =>
              r3 = set_timing "dc_power_flow" (if s2 then Some e2 else None)
                     (set_timing "ac_power_flow" (if s1 then Some e1 else None) results)
          end) as [-> Hr3].
  { destruct s3; [destruct p3|]; unfold ret, raise in Hr; inversion Hr; auto. }
  unfold ret in Ht. inversion Ht; subst r w4'. clear Ht.
  exists (e1, s1, p1), (e2, s2, p2), (e3, s3, p3), (e4, s4, p4).
  split; [now exists w1, w2, w3|].
  split.
  - destruct s4; destruct s3; [destruct p3| |destruct p3|]; try contradiction;
      subst r3; reflexivity.
  - destruct s3; [destruct p3|]; try contradiction; subst r3;
      eexists; (split; [reflexivity|]); destruct s4; reflexivity.
Qed.

(** What a run of [main] that reaches its end has done: it loaded the
    network, ran [tests] on the empty record and stored the result. *)
Lemma main_Ok (w w' : World Env) :
  main w = (Ok tt, w') ->
  exists network r w0 w4 results,
    pn_load "./Test System/SmallSystem_case.raw" (w_env w) = (Ok network, w_env w0)
    /\ w_calls w0 = w_calls w
    /\ timing_ms results = [] /\ success_rates results = []
    /\ tests network
               (contingency_branches num_contingencies (get_branches network))
               (monitored_branches num_monitored (get_branches network))
               (injection_points (get_generators network) (get_loads network))
               results w0 = (Ok r, w4)
    /\ w_files w' !! "powsybl_results.json" = Some (FResults r).
Proof.
  unfold main. intros Hm.
  repeat (apply PyEffFacts.bind_Ok in Hm as (? & ? & ?Hs & Hm); cbv beta zeta in Hm).
  repeat match goal with
         | H : print _ _ = (Ok _, _) |- _ => apply print_Ok in H as (? & ? & ?)
         end.
  assert (F1 : forall (l : list (string * option float)) (wa wb : World Env) u,
             for_each l
               (fun item =>
                  match snd item with
                  | Some time_ms =>
                      print ("  " +:+ fst item +:+ ": " +:+ format_2f time_ms +:+ "ms")
                  | None => print ("  " +:+ fst item +:+ ": FAILED")
                  end) wa = (Ok u, wb) -> w_files wb = w_files wa).
  { intros l wa wb u E. change wb with (snd (Ok u, wb)). rewrite <- E.
    apply (PyEffFacts.for_each_invariant (fun w1 => w_files w1 = w_files wa)); auto.
    intros [k [t|]] w1 Hw1; exact Hw1. }
  assert (F2 : forall (l : list (string * string)) (wa wb : World Env) u,
             for_each l (fun item => print ("  " +:+ fst item +:+ ": " +:+ snd item)) wa
             = (Ok u, wb) -> w_files wb = w_files wa).
  { intros l wa wb u E. change wb with (snd (Ok u, wb)). rewrite <- E.
    apply for_each_print_files. }
  repeat match goal with
         | E : for_each _ _ _ = (Ok _, _) |- _ =>
             first [apply F1 in E | apply F2 in E]
         end.
  clear F1 F2.
  match goal with
  | E : gets _ _ = _ |- _ => unfold gets in E; injection E as <- <-
  end.
  match goal with
  | E : json_dump _ _ _ = _ |- _ => unfold json_dump, modify in E; injection E as _ <-
  end.
  match goal with
  | E : lib _ _ = _ |- _ => unfold lib in E
  end.
  destruct (pn_load _ _) as [rn env0] eqn:Hpn.
  match goal with
  | E : (_, _) = (Ok _, _) |- _ => injection E as -> <-
  end.
  simpl in *.
  match goal with
  | E : tests ?n _ _ _ ?res ?wa = (Ok ?r, ?wb) |- _ =>
      exists n, r, wa, wb, res
  end.
  repeat split; try reflexivity; try assumption.
  - match type of Hpn with
    | pn_load _ (w_env ?x) = _ => replace (w_env w) with (w_env x) by congruence
    end.
    rewrite Hpn. f_equal. congruence.
  - congruence.
  - match goal with
    | E : w_files _ = <[_ := FResults ?r]> (w_files ?b) |- _ =>
        replace (w_files w') with
          (<["powsybl_results.json" := FResults r]> (w_files b)) by congruence
    end.
    apply lookup_insert_eq.
Qed.

(** C10. After a run of [main] that reaches its end, the record stored in
    [powsybl_results.json] has the four keys [ac_power_flow],
    [dc_power_flow], [dc_contingency_analysis] and [ptdf_calculation], in
    this order and no other; each holds what the timed call of that test
    returned: the measured duration when it succeeded, [None] (null) when
    it failed. *)
Theorem complete_run_records_four_timings (w w' : World Env) :
  main w = (Ok tt, w') ->
  exists r network w0 w4 o1 o2 o3 o4,
    w_files w' !! "powsybl_results.json" = Some (FResults r)
    /\ pn_load "./Test System/SmallSystem_case.raw" (w_env w) = (Ok network, w_env w0)
    /\ tests_run network
         (contingency_branches num_contingencies (get_branches network))
         (monitored_branches num_monitored (get_branches network))
         (injection_points (get_generators network) (get_loads network))
         w0 w4 o1 o2 o3 o4
    /\ timing_ms r =
         [("ac_power_flow", recorded o1);
          ("dc_power_flow", recorded o2);
          ("dc_contingency_analysis", recorded o3);
          ("ptdf_calculation", recorded o4)].
Proof.
  intros Hm.
  apply main_Ok in Hm as (network & r & w0 & w4 & results & Hload & _ & Ht & _ & Htests & Hfile).
  apply tests_Ok in Htests as (o1 & o2 & o3 & o4 & Hrun & Htiming & _).
  exists r, network, w0, w4, o1, o2, o3, o4.
  repeat split; try assumption.
  rewrite Htiming, Ht. reflexivity.
Qed.

(** The source's count is the count of the specification. *)
Lemma successful_contingencies_spec (sa_result : SecurityAnalysisResult) :
  spec_converged_count (outcomes sa_result) (successful_contingencies sa_result).
Proof.
  unfold outcomes, successful_contingencies.
  induction (post_contingency_results sa_result) as [|[k c] l IH].
  - constructor.
  - unfold dict in *. rewrite filter_cons. cbn [map snd].
    destruct c as [st]. case_decide as Hst; simpl in *.
    + apply spec_count_converged; [|exact IH].
      simpl. destruct st; simpl in Hst; congruence.
    + apply spec_count_other; [|exact IH].
      simpl. intros ->. apply Hst. reflexivity.
Qed.

(** The specification's count is a function of the outcomes, and never
    more than their number. *)
Lemma spec_converged_count_unique (l : list PostContingencyResult) (n m : nat) :
  spec_converged_count l n -> spec_converged_count l m -> n = m.
Proof.
  intros Hn. revert m.
  induction Hn as [|c l n Hc Hn IH|c l n Hc Hn IH]; intros m Hm;
    inversion Hm; subst; try contradiction; auto.
Qed.

Lemma spec_converged_count_le (l : list PostContingencyResult) (n : nat) :
  spec_converged_count l n -> (n <= length l)%nat.
Proof. induction 1; simpl; lia. Qed.

(** C8. After a run of [main] that reaches its end, the stored record has
    a success rate for the contingency analysis exactly when the timed
    batch call succeeded.  It is then the string made of [converged], a
    slash and the number of contingencies submitted, where [converged]
    is the number of individual contingency outcomes of the batch whose
    status equals [CONVERGED] (the count of the specification,
    [spec_converged_count]).  When the batch call failed the record has
    no success rate for the scenario. *)
Theorem contingency_success_rate (w w' : World Env) :
  main w = (Ok tt, w') ->
  exists r network w0 w4 o1 o2 o3 o4,
    let contingency := contingency_branches num_contingencies (get_branches network) in
    w_files w' !! "powsybl_results.json" = Some (FResults r)
    /\ pn_load "./Test System/SmallSystem_case.raw" (w_env w) = (Ok network, w_env w0)
    /\ tests_run network contingency
         (monitored_branches num_monitored (get_branches network))
         (injection_points (get_generators network) (get_loads network))
         w0 w4 o1 o2 o3 o4
    /\ match o3 with
       | (_, true, Some sa_result) =>
           exists converged : nat,
             spec_converged_count (outcomes sa_result) converged
             /\ get "dc_contingency" (success_rates r)
                = Some (str_of_nat converged +:+ "/"
                          +:+ str_of_nat (length contingency))
       | (_, true, None) => False
       | (_, false, _) => get "dc_contingency" (success_rates r) = None
       end.
Proof.
  intros Hm.
  apply main_Ok in Hm as (network & r & w0 & w4 & results & Hload & _ & _ & Hs & Htests & Hfile).
  apply tests_Ok in Htests as (o1 & o2 & o3 & o4 & Hrun & _ & rates & Hrates & Hr).
  exists r, network, w0, w4, o1, o2, o3, o4.
  cbv zeta. repeat split; try assumption.
  rewrite Hr. rewrite Hs in Hrates.
  destruct o3 as [[e3 [|]] [sa_result|]]; try contradiction; subst rates.
  - exists (successful_contingencies sa_result).
    split; [apply successful_contingencies_spec|].
    destruct (snd (fst o4)); reflexivity.
  - destruct (snd (fst o4)); reflexivity.
  - destruct (snd (fst o4)); reflexivity.
Qed.

End WithLibrary.

#[local] Existing Instance Examples.Bench.library.

Lemma time_operation_isolates_failure_witness :
  (exists w2, time_operation Examples.Bench.failing "2. DC Power Flow" Examples.Bench.world
              = (Ok (of_Z 1000, false, None), w2))
  /\ leb zero (of_Z 1000) = true
  /\ (exists w2, time_operation Examples.Bench.passing "1. AC Power Flow" Examples.Bench.world
                 = (Ok (of_Z 2000, true, Some tt), w2)).
Proof.
  pose proof (time_operation_isolates_failure
                Examples.Bench.failing "2. DC Power Flow" Examples.Bench.world
                (snd (Examples.Bench.failing
                        {| w_env := 100%Z; w_out := ["2. DC Power Flow..."];
                           w_calls := []; w_files := ∅ |}))) as [Hfail _].
  pose proof (time_operation_isolates_failure
                Examples.Bench.passing "1. AC Power Flow" Examples.Bench.world
                (snd (Examples.Bench.passing
                        {| w_env := 100%Z; w_out := ["1. AC Power Flow..."];
                           w_calls := []; w_files := ∅ |}))) as [_ Hpass].
  specialize (Hfail (Exn OtherException "diverged") eq_refl ltac:(discriminate)).
  specialize (Hpass tt eq_refl).
  destruct Hfail as [Hret Hpos]. split; [exact Hret|]. split.
  - apply Hpos; reflexivity.
  - exact Hpass.
Defined.

(** C3, counterexample.  The claim as stated fails on two inputs.  An
    operation that raises an exception after the wall clock was set back
    by five seconds makes [time_operation] return a duration of -5000 ms
    with [False]: the duration is negative.  An operation interrupted
    from the keyboard raises [KeyboardInterrupt], which is not an instance
    of [Exception]: [time_operation] lets it through to its caller. *)
Lemma negative_duration_when_clock_is_set_back :
  (fst (time_operation Examples.Bench.failing_after_clock_set_back
          "2. DC Power Flow" Examples.Bench.world)
   = Ok (of_Z (-5000), false, None)
   /\ leb zero (of_Z (-5000)) = false
   /\ ltb (of_Z (-5000)) zero = true)
  /\ fst (time_operation Examples.Bench.interrupted
            "2. DC Power Flow" Examples.Bench.world)
     = Raised (Exn BaseOnly "KeyboardInterrupt").
Proof. vm_compute. repeat split; reflexivity. Qed.

(** The example run: the DC power flow fails, the other tests succeed and
    two of the three contingencies converge. *)
Example example_run_record :
  w_files (snd (main Examples.Bench.world)) !! "powsybl_results.json"
  = Some (FResults
            {| timestamp := "2024-01-01T00:00:00";
               package := "PowSyBl";
               network_info := {| buses := 3; branches := 3; generators := 2; loads := 1 |};
               config := {| contingencies := 3; Schema.monitored_branches := 3;
                            Schema.injection_points := 3 |};
               timing_ms := [("ac_power_flow", Some (of_Z 2000));
                             ("dc_power_flow", None);
                             ("dc_contingency_analysis", Some (of_Z 3000));
                             ("ptdf_calculation", Some (of_Z 4000))];
               success_rates := [("dc_contingency", "2/3");
                                 ("ptdf", "calculation_completed")] |}).
Proof. vm_compute. reflexivity. Qed.

Lemma example_run_completes :
  main Examples.Bench.world = (Ok tt, snd (main Examples.Bench.world)).
Proof. vm_compute. reflexivity. Qed.

Lemma complete_run_records_four_timings_witness :
  exists r network w0 w4 o1 o2 o3 o4,
    w_files (snd (main Examples.Bench.world)) !! "powsybl_results.json" = Some (FResults r)
    /\ pn_load "./Test System/SmallSystem_case.raw" (w_env Examples.Bench.world)
       = (Ok network, w_env w0)
    /\ tests_run network
         (contingency_branches num_contingencies (get_branches network))
         (monitored_branches num_monitored (get_branches network))
         (injection_points (get_generators network) (get_loads network))
         w0 w4 o1 o2 o3 o4
    /\ timing_ms r =
         [("ac_power_flow", recorded o1);
          ("dc_power_flow", recorded o2);
          ("dc_contingency_analysis", recorded o3);
          ("ptdf_calculation", recorded o4)].
Proof.
  exact (complete_run_records_four_timings _ _ example_run_completes).
Defined.

Lemma contingency_success_rate_witness :
  exists r network w0 w4 o1 o2 o3 o4,
    let contingency := contingency_branches num_contingencies (get_branches network) in
    w_files (snd (main Examples.Bench.world)) !! "powsybl_results.json" = Some (FResults r)
    /\ pn_load "./Test System/SmallSystem_case.raw" (w_env Examples.Bench.world)
       = (Ok network, w_env w0)
    /\ tests_run network contingency
         (monitored_branches num_monitored (get_branches network))
         (injection_points (get_generators network) (get_loads network))
         w0 w4 o1 o2 o3 o4
    /\ match o3 with
       | (_, true, Some sa_result) =>
           exists converged : nat,
             spec_converged_count (outcomes sa_result) converged
             /\ get "dc_contingency" (success_rates r)
                = Some (str_of_nat converged +:+ "/"
                          +:+ str_of_nat (length contingency))
       | (_, true, None) => False
       | (_, false, _) => get "dc_contingency" (success_rates r) = None
       end.
Proof.
  exact (contingency_success_rate _ _ example_run_completes).
Defined.

End BenchmarkFacts.

(** ** Properties of [run_comparison.py] *)

Module ComparisonFacts.
Import PyFloat PyStr PyDict PyEff Schema RunComparison.
Local Open Scope string_scope.

Section WithSystem.
Context {Env : Type} {sys : System Env}.

(** *** The comparison table *)

(** With two records the comparison returns the table of the four rows. *)
Lemma compare_timing_results_rows (a b : ResultRecord) (w : World Env) :
  exists w',
    compare_timing_results (Some a) (Some b) w
    = (Ok (Some (map (comparison_row (timing_ms a) (timing_ms b)) test_names)), w').
Proof.
  unfold compare_timing_results, bind, print, write, modify, ret. simpl. eauto.
Qed.

(** Without one of the records it prints why and returns [None]. *)
Lemma compare_timing_results_none (a b : option ResultRecord) (w : World Env) :
  a = None \/ b = None ->
  compare_timing_results a b w
  = (Ok None,
     {| w_env := w_env w;
        w_out := (w_out w ++ [newline +:+ str_mul "=" 60 +:+ newline;
                              " TIMING COMPARISON" +:+ newline;
                              str_mul "=" 60 +:+ newline;
                              "❌ Cannot compare - missing results files" +:+ newline])%list;
        w_files := w_files w; w_reports := w_reports w |}).
Proof.
  intros [-> | ->]; [|destruct a];
    unfold compare_timing_results, bind, print, write, modify, ret; simpl;
    rewrite <- !app_assoc; reflexivity.
Qed.

Lemma row_test (powsybl_timing powermodels_timing : dict (option float))
    (test_name : string) :
  Test (comparison_row powsybl_timing powermodels_timing test_name)
  = title (replace_char "_" " " test_name).
Proof.
  unfold comparison_row.
  destruct (timing_get test_name powsybl_timing),
           (timing_get test_name powermodels_timing); reflexivity.
Qed.

Lemma row_missing_timing (powsybl_timing powermodels_timing : dict (option float))
    (test_name : string) :
  timing_get test_name powsybl_timing = None
  \/ timing_get test_name powermodels_timing = None ->
  Speedup (comparison_row powsybl_timing powermodels_timing test_name) = "N/A"
  /\ Faster (comparison_row powsybl_timing powermodels_timing test_name) = "N/A".
Proof.
  unfold comparison_row. intros [-> | ->]; simpl.
  - auto.
  - destruct (timing_get test_name powsybl_timing); auto.
Qed.

(** C2. For every pair of result records the comparison returns a table
    with one row per scenario key, in the order [ac_power_flow],
    [dc_power_flow], [dc_contingency_analysis], [ptdf_calculation]; a row
    whose key has no timing (absent or null) in one of the records is still
    there, with speedup and faster engine both [N/A]. *)
Theorem one_row_per_scenario (a b : ResultRecord) (w : World Env) :
  exists rows w',
    compare_timing_results (Some a) (Some b) w = (Ok (Some rows), w')
    /\ map Test rows
       = ["Ac Power Flow"; "Dc Power Flow"; "Dc Contingency Analysis"; "Ptdf Calculation"]
    /\ Forall2
         (fun test_name row =>
            row = comparison_row (timing_ms a) (timing_ms b) test_name
            /\ Test row = title (replace_char "_" " " test_name)
            /\ (get test_name (timing_ms a) = None
                \/ get test_name (timing_ms a) = Some None
                \/ get test_name (timing_ms b) = None
                \/ get test_name (timing_ms b) = Some None ->
                Speedup row = "N/A" /\ Faster row = "N/A"))
         ["ac_power_flow"; "dc_power_flow"; "dc_contingency_analysis"; "ptdf_calculation"]
         rows.
Proof.
  destruct (compare_timing_results_rows a b w) as [w' E].
  eexists _, w'. split; [exact E|]. split.
  - unfold test_names. simpl. rewrite !row_test. reflexivity.
  - unfold test_names. simpl.
    repeat (constructor;
            [split; [reflexivity
                    |split; [apply row_test
                            |intros Hm; apply row_missing_timing;
                             unfold timing_get;
                             destruct Hm as [-> | [-> | [-> | ->]]]; auto]]|]).
    constructor.
Qed.

(** C5. A PowerModels.jl time of zero, the denominator of the speedup,
    does not stop the comparison: it returns its table, and the row of
    that key has the speedup [inf]. *)
Theorem zero_denominator_gives_inf (a b : ResultRecord) (w : World Env)
    (test_name : string) (timeA timeB : float) :
  In test_name test_names ->
  timing_get test_name (timing_ms b) = Some timeA ->
  timing_get test_name (timing_ms a) = Some timeB ->
  eqb timeA zero = true ->
  exists rows w',
    compare_timing_results (Some a) (Some b) w = (Ok (Some rows), w')
    /\ In (comparison_row (timing_ms a) (timing_ms b) test_name) rows
    /\ Speedup (comparison_row (timing_ms a) (timing_ms b) test_name) = "infx".
Proof.
  intros Hin HA HB Hz.
  destruct (compare_timing_results_rows a b w) as [w' E].
  eexists _, w'. split; [exact E|]. split.
  - now apply in_map.
  - unfold comparison_row. rewrite HA, HB. simpl. rewrite Hz. reflexivity.
Qed.

(** *** Missing artifacts *)

Lemma load_json_results_missing (filename : string) (w : World Env) :
  w_files w !! filename = None ->
  load_json_results filename w
  = (Ok None,
     {| w_env := w_env w;
        w_out := (w_out w ++ [("⚠️  Warning: " +:+ filename +:+ " not found") +:+ newline])%list;
        w_files := w_files w; w_reports := w_reports w |}).
Proof.
  intros E. unfold load_json_results, try_except, bind, json_load. rewrite E. reflexivity.
Qed.

Lemma load_json_results_unreadable (filename err : string) (w : World Env) :
  w_files w !! filename = Some (FOther err) ->
  load_json_results filename w
  = (Ok None,
     {| w_env := w_env w;
        w_out := (w_out w ++ [("⚠️  Warning: Error loading " +:+ filename +:+ ": " +:+ err)
                                +:+ newline])%list;
        w_files := w_files w; w_reports := w_reports w |}).
Proof.
  intros E. unfold load_json_results, try_except, bind, json_load. rewrite E. reflexivity.
Qed.

Lemma load_json_results_present (filename : string) (r : ResultRecord) (w : World Env) :
  w_files w !! filename = Some (FResults r) ->
  load_json_results filename w = (Ok (Some r), w).
Proof.
  intros E. unfold load_json_results, try_except, bind, json_load. rewrite E. reflexivity.
Qed.

(** C6, as the code has it.  A missing result file loads as [None] with a
    warning that names the file, and so does a file that cannot be read
    as JSON; with one of the records missing the comparison does not raise:
    it prints that it cannot compare and returns no table at all; the
    report is still saved, with the records that were loaded and no
    comparison summary. *)
Theorem missing_artifact_gives_no_table
    (filename : string) (a b : option ResultRecord) (w : World Env) :
  (w_files w !! filename = None ->
   fst (load_json_results filename w) = Ok None
   /\ w_out (snd (load_json_results filename w))
      = (w_out w ++ [("⚠️  Warning: " +:+ filename +:+ " not found") +:+ newline])%list)
  /\ (forall err, w_files w !! filename = Some (FOther err) ->
      fst (load_json_results filename w) = Ok None
      /\ w_out (snd (load_json_results filename w))
         = (w_out w ++ [("⚠️  Warning: Error loading " +:+ filename +:+ ": " +:+ err)
                          +:+ newline])%list)
  /\ (a = None \/ b = None ->
      fst (compare_timing_results a b w) = Ok None
      /\ last (w_out (snd (compare_timing_results a b w)))
         = Some ("❌ Cannot compare - missing results files" +:+ newline))
  /\ (let file := "benchmark_comparison_" +:+ datetime_now_strftime (w_env w) +:+ ".json" in
      fst (save_comparison_report None a b w) = Ok file
      /\ w_reports (snd (save_comparison_report None a b w)) !! file
         = Some {| report_timestamp := datetime_now_isoformat (w_env w);
                   powsybl_results := a;
                   powermodels_results := b;
                   comparison_summary := None |}).
Proof.
  repeat split.
  - now rewrite load_json_results_missing.
  - now rewrite load_json_results_missing.
  - now rewrite (load_json_results_unreadable _ err).
  - now rewrite (load_json_results_unreadable _ err).
  - now rewrite compare_timing_results_none.
  - rewrite compare_timing_results_none by assumption. cbn [snd w_out].
    match goal with
    | |- last (?l ++ [?x1; ?x2; ?x3; ?x4])%list = _ =>
        replace (l ++ [x1; x2; x3; x4])%list with ((l ++ [x1; x2; x3]) ++ [x4])%list
          by (rewrite <- app_assoc; reflexivity)
    end.
    apply last_snoc.
  - unfold save_comparison_report, bind, gets, modify, print, write, ret. simpl.
    apply lookup_insert_eq.
Qed.

(** *** The exit code *)

Lemma total_print (s : string) : total (print (Env := Env) s).
Proof. apply PyEffFacts.total_modify. Qed.

Lemma total_path_exists (path : string) : total (path_exists (Env := Env) path).
Proof. apply PyEffFacts.total_gets. Qed.

Lemma total_load_json_results (filename : string) : total (load_json_results (Env := Env) filename).
Proof.
  intros w. destruct (w_files w !! filename) as [[r|err]|] eqn:E.
  - rewrite (load_json_results_present _ r) by assumption. eauto.
  - rewrite (load_json_results_unreadable _ err) by assumption. eauto.
  - rewrite load_json_results_missing by assumption. eauto.
Qed.

Lemma total_compare_timing_results (a b : option ResultRecord) :
  total (compare_timing_results a b).
Proof.
  intros w. destruct a as [a|]; [destruct b as [b|]|].
  - destruct (compare_timing_results_rows a b w) as [w' E]. rewrite E. eauto.
  - rewrite compare_timing_results_none by auto. eauto.
  - rewrite compare_timing_results_none by auto. eauto.
Qed.

Lemma total_compare_success_rates (a b : option ResultRecord) :
  total (compare_success_rates (Env := Env) a b).
Proof.
  unfold compare_success_rates.
  repeat (apply PyEffFacts.total_bind; [apply total_print|intros _]).
  destruct a as [a|]; [destruct b as [b|]|]; try apply total_print.
  repeat (apply PyEffFacts.total_bind; [|intros _]);
    try apply total_print;
    apply PyEffFacts.total_for_each; intros x; apply total_print.
Qed.

Lemma total_compare_ptdf_matrices : total (compare_ptdf_matrices (Env := Env)).
Proof.
  unfold compare_ptdf_matrices.
  repeat (apply PyEffFacts.total_bind; [apply total_print|intros _]).
  apply total_print.
Qed.

Lemma total_save_comparison_report (df : option DataFrame) (a b : option ResultRecord) :
  total (save_comparison_report df a b).
Proof.
  unfold save_comparison_report.
  repeat (apply PyEffFacts.total_bind; [|intros ?]);
    auto using PyEffFacts.total_gets, PyEffFacts.total_modify, total_print,
               PyEffFacts.total_ret.
Qed.

(** What [run_command] returns, from what the launched program did. *)
Lemma run_command_outcome (command description : string) (w : World Env) :
  let r := subprocess_run command (w_env w) (w_files w) in
  (forall e, fst (fst r) = Raised e -> class e <> BaseOnly) ->
  exists out w1,
    run_command command description w = (Ok (succeeded (fst (fst r)), fst out, snd out), w1)
    /\ w_env w1 = snd (fst r) /\ w_files w1 = snd r.
Proof.
  intros r Hr. unfold run_command.
  unfold bind, print, write, modify, try_except, run_subprocess. simpl.
  subst r. destruct (subprocess_run command (w_env w) (w_files w)) as [[[cp|e] env'] files'];
    simpl in *.
  - destruct (returncode cp =? 0)%Z; unfold when, ret;
      repeat match goal with
             | |- context [if negb ?b then _ else _] => destruct b; simpl
             end;
      eexists (_, _), _; simpl; eauto.
  - specialize (Hr e eq_refl).
    destruct e as [[] text]; simpl in *; try congruence;
      eexists (_, _), _; simpl; eauto.
Qed.

Lemma print_step {A : Type} (s : string) (k : unit -> M (World Env) A) (w : World Env) :
  bind (print s) k w = k tt (snd (print s w)).
Proof. reflexivity. Qed.

Lemma cleanup_step (file : string) (w : World Env) :
  exists w1,
    bind (path_exists file)
      (fun present => when present (bind (remove file)
                                      (fun _ => print ("   Removed: " +:+ file)))) w
    = (Ok tt, w1)
    /\ w_env w1 = w_env w /\ w_files w1 = delete file (w_files w).
Proof.
  unfold bind, path_exists, gets, remove, modify, print, write, when, ret. simpl.
  destruct (bool_decide (is_Some (w_files w !! file))) eqn:E1; simpl.
  - eauto.
  - apply bool_decide_eq_false in E1. rewrite <- eq_None_not_Some in E1.
    destruct (bool_decide (is_Some (w_reports w !! file))); simpl; eauto.
    eexists; repeat split. now rewrite delete_id.
Qed.

(** C4, as the code has it.  [main] returns 0 exactly when the grid model
    is there and both programs ended with exit code 0, and 1 otherwise; the
    result files that the programs left do not enter into the exit code. *)
Theorem exit_code_follows_the_runs (w : World Env) :
  let found := bool_decide (is_Some (w_files w !! test_system))
               || bool_decide (is_Some (w_reports w !! test_system)) in
  let files1 := delete "powermodels_results.json"
                  (delete "powsybl_results.json" (w_files w)) in
  let r1 := subprocess_run "python3 benchmark_powsybl.py" (w_env w) files1 in
  let r2 := subprocess_run "julia benchmark_powermodels.jl" (snd (fst r1)) (snd r1) in
  (forall e, fst (fst r1) = Raised e -> class e <> BaseOnly) ->
  (forall e, fst (fst r2) = Raised e -> class e <> BaseOnly) ->
  exists w',
    main w = (Ok (if found && succeeded (fst (fst r1)) && succeeded (fst (fst r2))
                  then 0 else 1)%Z, w').
Proof.
  intros found files1 r1 r2 H1 H2. unfold main.
  rewrite !print_step.
  match goal with
  | |- exists _, bind _ _ ?wx = _ =>
      set (w0 := wx);
      assert (E0 : w_env w0 = w_env w /\ w_files w0 = w_files w
                   /\ w_reports w0 = w_reports w)
        by (repeat split; reflexivity);
      clearbody w0
  end.
  destruct E0 as (Ee & Ef & Er).
  unfold bind at 1, path_exists at 1, gets. rewrite Ef, Er. fold found.
  destruct found; cbn [negb andb].
  2: { rewrite !print_step. unfold ret. eauto. }
  rewrite print_step. cbn [for_each].
  match goal with
  | |- exists _, bind _ _ ?wx = _ =>
      set (wa := wx);
      assert (Ea : w_env wa = w_env w /\ w_files wa = w_files w)
        by (split; [rewrite <- Ee|rewrite <- Ef]; reflexivity);
      clearbody wa
  end.
  clear w0 Ee Ef Er. destruct Ea as (Ee & Ef).
  rewrite PyEffFacts.bind_assoc.
  destruct (cleanup_step "powsybl_results.json" wa) as (wb & Eb & Ebe & Ebf).
  rewrite (PyEffFacts.bind_step _ _ _ _ _ Eb).
  rewrite PyEffFacts.bind_assoc.
  destruct (cleanup_step "powermodels_results.json" wb) as (wc & Ec & Ece & Ecf).
  rewrite (PyEffFacts.bind_step _ _ _ _ _ Ec).
  unfold bind at 1, ret at 1.
  assert (Ewe : w_env wc = w_env w) by congruence.
  assert (Ewf : w_files wc = files1) by (unfold files1; congruence).
  clear Eb Ec Ebe Ebf Ece Ecf Ee Ef wa wb.
  destruct (run_command_outcome "python3 benchmark_powsybl.py"
              "RUNNING POWSYBL BENCHMARK" wc) as (o1 & wd & Ed & Ede & Edf).
  { rewrite Ewe, Ewf. exact H1. }
  rewrite Ewe, Ewf in Ed, Ede, Edf. fold r1 in Ed, Ede, Edf.
  rewrite (PyEffFacts.bind_step _ _ _ _ _ Ed). cbv beta iota.
  destruct (run_command_outcome "julia benchmark_powermodels.jl"
              "RUNNING POWERMODELS.JL BENCHMARK" wd) as (o2 & we & Eg & _ & _).
  { rewrite Ede, Edf. exact H2. }
  rewrite Ede, Edf in Eg. fold r2 in Eg.
  rewrite (PyEffFacts.bind_step _ _ _ _ _ Eg). cbv beta iota.
  generalize (succeeded (fst (fst r1))) (succeeded (fst (fst r2))). intros s1 s2.
  repeat (apply PyEffFacts.bind_returns;
          [first [ apply total_print
                 | apply total_load_json_results
                 | apply total_compare_timing_results
                 | apply total_compare_success_rates
                 | apply total_compare_ptdf_matrices
                 | apply total_save_comparison_report
                 | apply PyEffFacts.total_when, total_print
                 | idtac ]
          | intros ? ? ]).
  - destruct (s1 && s2); [apply total_print|].
    repeat (apply PyEffFacts.total_bind; [|intros _]);
      auto using total_print, PyEffFacts.total_when.
  - repeat (apply PyEffFacts.total_bind; [|intros ?]);
      try apply total_path_exists; try apply PyEffFacts.total_ret;
      match goal with
      | |- total (if ?b then _ else _) => destruct b; apply total_print
      end.
  - unfold ret. eauto.
Qed.

End WithSystem.

(** *** The comparison on concrete records *)

Import Examples.Compare.

(** C1, as the code has it.  When both records hold a timing for a key,
    the speedup of the row of that key is the PowSyBl time divided by the
    PowerModels.jl time (if that is not zero), and the label is
    PowerModels.jl when its time is the smaller one, PowSyBl otherwise.
    With A = PowerModels.jl and B = PowSyBl this is [timeB / timeA] and the
    label A exactly when [timeA < timeB], so that a tie is labelled B.  In
    the scenario of the specification (A with 100 ms and 50 ms, B with
    400 ms and no DC timing) the first row has speedup 4.00x and label A,
    the second has [N/A] twice. *)
Theorem row_speedup_and_label {Env : Type} {sys : System Env} :
  (forall (a b : ResultRecord) (w : World Env) (test_name : string) (timeA timeB : float),
      In test_name test_names ->
      timing_get test_name (timing_ms b) = Some timeA ->
      timing_get test_name (timing_ms a) = Some timeB ->
      exists rows w' row,
        compare_timing_results (Some a) (Some b) w = (Ok (Some rows), w')
        /\ In row rows
        /\ Test row = title (replace_char "_" " " test_name)
        /\ (eqb timeA zero = false -> Speedup row = format_2f (div timeB timeA) +:+ "x")
        /\ Faster row = (if ltb timeA timeB then "PowerModels.jl" else "PowSyBl"))
  /\ fst (compare_timing_results (sys := quiet_system)
            (Some (record "PowSyBl" timing_400))
            (Some (record "PowerModels.jl" timing_100_50)) world)
     = Ok (Some
             [ {| Test := "Ac Power Flow"; PowSyBl_ms := "400.00";
                  PowerModels_ms := "100.00"; Speedup := "4.00x";
                  Faster := "PowerModels.jl" |};
               {| Test := "Dc Power Flow"; PowSyBl_ms := "FAILED";
                  PowerModels_ms := "50.00"; Speedup := "N/A"; Faster := "N/A" |};
               {| Test := "Dc Contingency Analysis"; PowSyBl_ms := "FAILED";
                  PowerModels_ms := "FAILED"; Speedup := "N/A"; Faster := "N/A" |};
               {| Test := "Ptdf Calculation"; PowSyBl_ms := "FAILED";
                  PowerModels_ms := "FAILED"; Speedup := "N/A"; Faster := "N/A" |} ]).
Proof.
  split.
  - intros a b w test_name timeA timeB Hin HA HB.
    destruct (compare_timing_results_rows a b w) as [w' E].
    eexists _, w', (comparison_row (timing_ms a) (timing_ms b) test_name).
    split; [exact E|]. split; [now apply in_map|]. split; [apply row_test|].
    unfold comparison_row. rewrite HA, HB. simpl. split; [|reflexivity].
    intros ->. reflexivity.
  - vm_compute. reflexivity.
Qed.

(** C1 fails as stated, whichever record is taken for A.  With A =
    PowerModels.jl and B = PowSyBl, both at 100 ms, the claimed label is A
    and the row says PowSyBl.  With A = PowSyBl, the first argument, at
    100 ms and B = PowerModels.jl at 400 ms, the claimed speedup is 4.00x
    and the row says 0.25x. *)
Lemma claimed_row_differs :
  (fst (compare_timing_results (sys := quiet_system)
          (Some (record "PowSyBl" timing_tie)) (Some (record "PowerModels.jl" timing_tie))
          world)
   = Ok (Some
           [ {| Test := "Ac Power Flow"; PowSyBl_ms := "100.00";
                PowerModels_ms := "100.00"; Speedup := "1.00x"; Faster := "PowSyBl" |};
             {| Test := "Dc Power Flow"; PowSyBl_ms := "FAILED";
                PowerModels_ms := "FAILED"; Speedup := "N/A"; Faster := "N/A" |};
             {| Test := "Dc Contingency Analysis"; PowSyBl_ms := "FAILED";
                PowerModels_ms := "FAILED"; Speedup := "N/A"; Faster := "N/A" |};
             {| Test := "Ptdf Calculation"; PowSyBl_ms := "FAILED";
                PowerModels_ms := "FAILED"; Speedup := "N/A"; Faster := "N/A" |} ])
   /\ claimed_faster "PowerModels.jl" "PowSyBl" (of_Z 100) (of_Z 100) = "PowerModels.jl")
  /\ (fst (compare_timing_results (sys := quiet_system)
             (Some (record "PowSyBl" timing_100_50))
             (Some (record "PowerModels.jl" timing_400)) world)
      = Ok (Some
              [ {| Test := "Ac Power Flow"; PowSyBl_ms := "100.00";
                   PowerModels_ms := "400.00"; Speedup := "0.25x"; Faster := "PowSyBl" |};
                {| Test := "Dc Power Flow"; PowSyBl_ms := "50.00";
                   PowerModels_ms := "FAILED"; Speedup := "N/A"; Faster := "N/A" |};
                {| Test := "Dc Contingency Analysis"; PowSyBl_ms := "FAILED";
                   PowerModels_ms := "FAILED"; Speedup := "N/A"; Faster := "N/A" |};
                {| Test := "Ptdf Calculation"; PowSyBl_ms := "FAILED";
                   PowerModels_ms := "FAILED"; Speedup := "N/A"; Faster := "N/A" |} ])
      /\ claimed_speedup (of_Z 100) (of_Z 400) = "4.00x"
      /\ claimed_faster "PowSyBl" "PowerModels.jl" (of_Z 100) (of_Z 400) = "PowSyBl").
Proof. vm_compute. auto. Qed.

Lemma row_speedup_and_label_witness :
  exists rows w' row,
    compare_timing_results (sys := quiet_system)
      (Some (record "PowSyBl" timing_400)) (Some (record "PowerModels.jl" timing_100_50))
      world = (Ok (Some rows), w')
    /\ In row rows
    /\ Test row = "Ac Power Flow"
    /\ Speedup row = format_2f (div (of_Z 400) (of_Z 100)) +:+ "x"
    /\ Faster row = "PowerModels.jl".
Proof.
  destruct (row_speedup_and_label (sys := quiet_system)) as [Hrow _].
  destruct (Hrow (record "PowSyBl" timing_400) (record "PowerModels.jl" timing_100_50)
              world "ac_power_flow" (of_Z 100) (of_Z 400))
    as (rows & w' & row & E & Hin & Ht & Hs & Hf).
  - simpl. auto.
  - reflexivity.
  - reflexivity.
  - exists rows, w', row. repeat split; auto.
Defined.

Lemma zero_denominator_gives_inf_witness :
  exists rows w',
    compare_timing_results (sys := quiet_system)
      (Some (record "PowSyBl" timing_100_50)) (Some (record "PowerModels.jl" timing_zero))
      world = (Ok (Some rows), w')
    /\ In (comparison_row timing_100_50 timing_zero "ac_power_flow") rows
    /\ Speedup (comparison_row timing_100_50 timing_zero "ac_power_flow") = "infx".
Proof.
  apply (zero_denominator_gives_inf (sys := quiet_system)
           (record "PowSyBl" timing_100_50) (record "PowerModels.jl" timing_zero)
           world "ac_power_flow" zero (of_Z 100)).
  - simpl. auto.
  - reflexivity.
  - reflexivity.
  - reflexivity.
Defined.

(** C6 fails as stated.  With the results of PowSyBl missing and those of
    PowerModels.jl on disk, the comparison returns no table, not a table
    with [N/A] rows; and when the PowSyBl program fails and the
    PowerModels.jl program writes its results, [main] saves a report whose
    comparison summary is null. *)
Lemma no_partial_table :
  fst (load_json_results "powsybl_results.json" world_one_artifact) = Ok None
  /\ fst (load_json_results "powermodels_results.json" world_one_artifact)
     = Ok (Some (record "PowerModels.jl" timing_100_50))
  /\ fst (compare_timing_results (sys := quiet_system)
            None (Some (record "PowerModels.jl" timing_100_50)) world_one_artifact)
     = Ok None
  /\ fst (main (sys := julia_only_system) world) = Ok 1%Z
  /\ w_reports (snd (main (sys := julia_only_system) world))
       !! "benchmark_comparison_20240101_000000.json"
     = Some {| report_timestamp := "2024-01-01T00:00:00";
               powsybl_results := None;
               powermodels_results := Some (record "PowerModels.jl" timing_100_50);
               comparison_summary := None |}.
Proof. vm_compute. auto. Qed.

Lemma missing_artifact_gives_no_table_witness :
  fst (load_json_results "powsybl_results.json" world_one_artifact) = Ok None
  /\ fst (compare_timing_results (sys := quiet_system)
            None (Some (record "PowerModels.jl" timing_100_50)) world_one_artifact)
     = Ok None.
Proof.
  destruct (missing_artifact_gives_no_table (sys := quiet_system)
              "powsybl_results.json" None (Some (record "PowerModels.jl" timing_100_50))
              world_one_artifact) as (Hmissing & _ & Hcompare & _).
  split.
  - apply Hmissing. reflexivity.
  - apply Hcompare. now left.
Defined.

(** C4 fails as stated.  Both programs end with exit code 0 and leave no
    result file; [main] returns 0. *)
Lemma exit_code_ignores_artifacts :
  fst (main (sys := quiet_system) world) = Ok 0%Z
  /\ w_files (snd (main (sys := quiet_system) world)) !! "powsybl_results.json" = None
  /\ w_files (snd (main (sys := quiet_system) world)) !! "powermodels_results.json" = None.
Proof. vm_compute. auto. Qed.

Lemma exit_code_follows_the_runs_witness :
  exists w', main (sys := quiet_system) world = (Ok 0%Z, w').
Proof.
  destruct (exit_code_follows_the_runs (sys := quiet_system) world) as [w' E].
  - intros e He. discriminate He.
  - intros e He. discriminate He.
  - exists w'. rewrite E. reflexivity.
Defined.

End ComparisonFacts.

(** ** More on [benchmark_powsybl.py] *)

Module BenchmarkMore.
Import PyFloat PyStr PyDict PyEff Schema BenchmarkPowsybl.
Local Open Scope string_scope.

#[local] Existing Instance BenchmarkFacts.str_le_trans.

(** *** The selections *)

Lemma sorted_length (l : list string) : length (sorted l) = length l.
Proof. apply Permutation_length, BenchmarkFacts.sorted_Permutation. Qed.

(** X3. A selection holds the requested number of identifiers, or all of
    them when the network has fewer; every selected identifier is a
    candidate, none is selected twice unless it is listed twice, and the
    selection is in sorted order. *)
Theorem selection_bounds (n : nat) (candidates : list string) :
  length (contingency_branches n candidates) = min n (length candidates)
  /\ (forall x, x ∈ contingency_branches n candidates -> x ∈ candidates)
  /\ (NoDup candidates -> NoDup (contingency_branches n candidates))
  /\ Sorted str_le (contingency_branches n candidates)
  /\ (length candidates <= n -> contingency_branches n candidates ≡ₚ candidates)%nat.
Proof.
  unfold contingency_branches. repeat split.
  - now rewrite length_take, sorted_length.
  - intros x Hx. apply subseteq_take in Hx.
    now rewrite BenchmarkFacts.sorted_Permutation in Hx.
  - intros Hnd. apply (sublist_NoDup _ (sorted candidates)).
    + now rewrite BenchmarkFacts.sorted_Permutation.
    + apply sublist_take.
  - pose proof (BenchmarkFacts.sorted_Sorted candidates) as Hs.
    apply (Sorted_StronglySorted str_le) in Hs.
    rewrite <- (take_drop n (sorted candidates)) in Hs.
    apply StronglySorted_app_1_l in Hs.
    now apply StronglySorted_Sorted.
  - intros Hlen. rewrite take_ge by (rewrite sorted_length; lia).
    apply BenchmarkFacts.sorted_Permutation.
Qed.

Lemma selection_bounds_witness :
  contingency_branches 500 ["L3"; "L1"; "L2"] ≡ₚ ["L3"; "L1"; "L2"]
  /\ NoDup (contingency_branches 2 ["L3"; "L1"; "L2"]).
Proof.
  destruct (selection_bounds 500 ["L3"; "L1"; "L2"]) as (_ & _ & _ & _ & Hall).
  destruct (selection_bounds 2 ["L3"; "L1"; "L2"]) as (_ & _ & Hnd & _).
  split.
  - apply Hall. simpl. lia.
  - apply Hnd. apply (bool_decide_unpack _). vm_compute. exact I.
Defined.

(** X4. With at most as many contingencies as monitored branches (500 and
    1000 in [main]), the contingency branches are the first of the
    monitored branches: every branch taken out is monitored. *)
Theorem contingencies_are_monitored (n_cont n_mon : nat) (branches : list string) :
  (n_cont <= n_mon)%nat ->
  contingency_branches n_cont branches = take n_cont (monitored_branches n_mon branches)
  /\ (forall x, x ∈ contingency_branches n_cont branches ->
                x ∈ monitored_branches n_mon branches).
Proof.
  intros Hle. unfold contingency_branches, monitored_branches.
  assert (E : take n_cont (sorted branches) = take n_cont (take n_mon (sorted branches))).
  { rewrite take_take. f_equal. lia. }
  split; [exact E|].
  intros x Hx. rewrite E in Hx. now apply subseteq_take in Hx.
Qed.

Lemma contingencies_are_monitored_witness :
  contingency_branches num_contingencies ["L3"; "L1"; "L2"]
  = take num_contingencies (monitored_branches num_monitored ["L3"; "L1"; "L2"]).
Proof.
  apply (contingencies_are_monitored num_contingencies num_monitored ["L3"; "L1"; "L2"]).
  unfold num_contingencies, num_monitored. lia.
Defined.

Section WithLibrary.
Context {Env : Type} {L : Library Env}.

(** *** The timed operation runner *)

(** The world in which [time_operation] starts the operation. *)
Lemma time_operation_cases {A : Type}
    (func : M (World Env) A) (description : string) (w : World Env) :
  let w0 := {| w_env := w_env w; w_out := (w_out w ++ [description +:+ "..."])%list;
               w_calls := w_calls w; w_files := w_files w |} in
  let ms := fun w1 => mul (sub (time_time (w_env w1)) (time_time (w_env w))) (of_Z 1000) in
  match func w0 with
  | (Ok a, w1) =>
      time_operation func description w
      = (Ok (ms w1, true, Some a),
         snd (print (" " +:+ format_2f (ms w1) +:+ "ms") w1))
  | (Raised e, w1) =>
      if catches ExceptException e then
        time_operation func description w
        = (Ok (ms w1, false, None),
           snd (print (" FAILED (" +:+ message e +:+ ")") w1))
      else time_operation func description w = (Raised e, w1)
  end.
Proof.
  intros w0 ms. unfold time_operation.
  unfold write, BenchmarkPowsybl.now, gets, modify.
  unfold try_except, bind. simpl. fold w0.
  destruct (func w0) as [[a|e] w1]; [reflexivity|].
  destruct e as [[] text]; reflexivity.
Qed.

(** X1. An exception that is not an [Exception] ([KeyboardInterrupt],
    [SystemExit]) is not caught by [time_operation]: it leaves with the
    same exception, in the world in which the operation raised it, without
    a duration and without printing that the operation failed. *)
Theorem time_operation_lets_interrupts_through {A : Type}
    (func : M (World Env) A) (description : string) (w w1 : World Env) (e : exn) :
  func {| w_env := w_env w; w_out := (w_out w ++ [description +:+ "..."])%list;
          w_calls := w_calls w; w_files := w_files w |} = (Raised e, w1) ->
  class e = BaseOnly ->
  time_operation func description w = (Raised e, w1).
Proof.
  intros Hf He. pose proof (time_operation_cases func description w) as Hc.
  cbv zeta in Hc. destruct e as [c text]. simpl in He. subst c.
  rewrite Hf in Hc. exact Hc.
Qed.

(** X2. Besides what it prints, [time_operation] leaves the world as one
    run of the operation left it: the environment, the solver calls and
    the files are those after the operation, whether it returned or
    raised; the first thing printed is the description. *)
Theorem time_operation_runs_operation_once {A : Type}
    (func : M (World Env) A) (description : string) (w : World Env) :
  let w0 := {| w_env := w_env w; w_out := (w_out w ++ [description +:+ "..."])%list;
               w_calls := w_calls w; w_files := w_files w |} in
  let w1 := snd (func w0) in
  let w2 := snd (time_operation func description w) in
  w_env w2 = w_env w1 /\ w_calls w2 = w_calls w1 /\ w_files w2 = w_files w1
  /\ (forall out1, w_out w1 = (w_out w0 ++ out1)%list ->
        exists out2, w_out w2 = (w_out w ++ (description +:+ "...") :: out2)%list).
Proof.
  intros w0 w1 w2. subst w1 w2.
  pose proof (time_operation_cases func description w) as Hc. cbv zeta in Hc.
  fold w0 in Hc. destruct (func w0) as [[a|e] w1]; simpl.
  - rewrite Hc. simpl. repeat split; auto.
    intros out1 ->. subst w0. simpl. rewrite <- !app_assoc. simpl. eauto.
  - destruct (catches ExceptException e); rewrite Hc; simpl; repeat split; auto;
      intros out1 ->; subst w0; simpl; rewrite <- ?app_assoc; simpl; eauto.
Qed.

(** *** The four tests *)

Lemma solver_run {A : Type} (c : solver_call) (f : Env -> outcome A * Env) (w : World Env) :
  solver c f w
  = (fst (f (w_env w)),
     {| w_env := snd (f (w_env w)); w_out := w_out w;
        w_calls := (w_calls w ++ [c])%list; w_files := w_files w |}).
Proof.
  unfold solver, lib, bind, modify. simpl. now destruct (f (w_env w)).
Qed.

Lemma run_ptdf_analysis_run (network : Network)
    (contingency monitored injection : list string) (w : World Env) :
  let analysis := {| factor_matrices := [(monitored, injection)];
                     sens_contingencies := contingency |} in
  run_ptdf_analysis network contingency monitored injection w
  = solver (CallSensitivityRun analysis network) (sensitivity_run analysis network) w.
Proof.
  intros analysis. unfold run_ptdf_analysis.
  rewrite BenchmarkFacts.fold_add_contingencies. simpl. fold analysis.
  unfold bind, ret. now destruct (solver _ _ w) as [[r|e] w1].
Qed.

(** A timed solver call: what it returns and what it leaves. *)
Lemma timed_solver {A : Type} (func : M (World Env) A) (c : solver_call)
    (f : Env -> outcome A * Env) (description : string) (w : World Env) :
  (forall w0, func w0 = solver c f w0) ->
  exists w2,
    w_env w2 = snd (f (w_env w))
    /\ w_calls w2 = (w_calls w ++ [c])%list
    /\ w_files w2 = w_files w
    /\ match fst (f (w_env w)) with
       | Ok a => exists ms, time_operation func description w = (Ok (ms, true, Some a), w2)
       | Raised e =>
           if catches ExceptException e
           then exists ms, time_operation func description w = (Ok (ms, false, None), w2)
           else time_operation func description w = (Raised e, w2)
       end.
Proof.
  intros Hf. pose proof (time_operation_cases func description w) as Hc.
  cbv zeta in Hc. rewrite Hf, solver_run in Hc. simpl in Hc.
  revert Hc. destruct (fst (f (w_env w))) as [a|[[] text]]; simpl; intros Hc;
    match type of Hc with
    | _ = (_, ?w2) => exists w2
    end;
    (split; [reflexivity|]); (split; [reflexivity|]); (split; [reflexivity|]);
    eauto.
Qed.

(** The same, for a timed call that returned. *)
Lemma timed_solver_Ok {A : Type} (func : M (World Env) A) (c : solver_call)
    (f : Env -> outcome A * Env) (description : string) (w w2 : World Env)
    (o : float * bool * option A) :
  (forall w0, func w0 = solver c f w0) ->
  time_operation func description w = (Ok o, w2) ->
  w_env w2 = snd (f (w_env w))
  /\ w_calls w2 = (w_calls w ++ [c])%list
  /\ w_files w2 = w_files w.
Proof.
  intros Hf Ht.
  destruct (timed_solver func c f description w Hf) as (w2' & He & Hc & Hfl & Hm).
  destruct (fst (f (w_env w))) as [a|e].
  - destruct Hm as [ms Hm]. rewrite Hm in Ht. injection Ht as _ <-. auto.
  - destruct (catches ExceptException e).
    + destruct Hm as [ms Hm]. rewrite Hm in Ht. injection Ht as _ <-. auto.
    + rewrite Hm in Ht. discriminate.
Qed.

(** A timed solver call returns unless the solver is interrupted. *)
Lemma timed_solver_returns {A : Type} (func : M (World Env) A) (c : solver_call)
    (f : Env -> outcome A * Env) (description : string) (w : World Env) :
  (forall w0, func w0 = solver c f w0) ->
  never_interrupted f ->
  exists ms success payload w2,
    time_operation func description w = (Ok (ms, success, payload), w2)
    /\ (success = true -> payload <> None)
    /\ (success = true <-> exists a, fst (f (w_env w)) = Ok a).
Proof.
  intros Hf Hn.
  destruct (timed_solver func c f description w Hf) as (w2 & _ & _ & _ & Hm).
  specialize (Hn (w_env w)).
  destruct (fst (f (w_env w))) as [a|e] eqn:E.
  - destruct Hm as [ms Hm]. exists ms, true, (Some a), w2.
    split; [exact Hm|]. split; [discriminate|]. split; eauto.
  - specialize (Hn e eq_refl).
    assert (Hc : catches ExceptException e = true)
      by (unfold catches; destruct (class e); congruence).
    rewrite Hc in Hm. destruct Hm as [ms Hm]. exists ms, false, None, w2.
    split; [exact Hm|]. split; [discriminate|]. split; [discriminate|].
    intros [a Ha]. discriminate.
Qed.

Lemma ac_is_solver (network : Network) (w0 : World Env) :
  (let p := {| distributed_slack := None |} in
   solver (CallRunAC network p) (lf_run_ac network p)) w0
  = solver (CallRunAC network {| distributed_slack := None |})
           (lf_run_ac network {| distributed_slack := None |}) w0.
Proof. reflexivity. Qed.

Lemma dc_is_solver (network : Network) (w0 : World Env) :
  (let p := {| distributed_slack := Some true |} in
   solver (CallRunDC network p) (lf_run_dc network p)) w0
  = solver (CallRunDC network {| distributed_slack := Some true |})
           (lf_run_dc network {| distributed_slack := Some true |}) w0.
Proof. reflexivity. Qed.

Lemma security_is_solver (network : Network) (contingency : list string) (w0 : World Env) :
  run_security_analysis network contingency w0
  = solver (CallSecurityRunDC {| sa_contingencies := contingency |} network
              {| distributed_slack := Some true |})
           (security_run_dc {| sa_contingencies := contingency |} network
              {| distributed_slack := Some true |}) w0.
Proof. reflexivity. Qed.

(** What the four tests leave: four solver calls, the files untouched. *)
Lemma tests_store (network : Network) (contingency monitored injection : list string)
    (results r : ResultRecord) (w0 w4 : World Env) :
  tests network contingency monitored injection results w0 = (Ok r, w4) ->
  w_calls w4 = (w_calls w0 ++ four_calls network contingency monitored injection)%list
  /\ w_files w4 = w_files w0.
Proof.
  intros Ht.
  apply BenchmarkFacts.tests_Ok in Ht
    as (o1 & o2 & o3 & o4 & (w1 & w2 & w3 & H1 & H2 & H3 & H4) & _).
  apply (timed_solver_Ok _ _ _ _ _ _ _ (ac_is_solver network)) in H1 as (_ & C1 & F1).
  apply (timed_solver_Ok _ _ _ _ _ _ _ (dc_is_solver network)) in H2 as (_ & C2 & F2).
  apply (timed_solver_Ok _ _ _ _ _ _ _ (security_is_solver network contingency)) in H3
    as (_ & C3 & F3).
  apply (timed_solver_Ok _ _ _ _ _ _ _
           (run_ptdf_analysis_run network contingency monitored injection)) in H4
    as (_ & C4 & F4).
  split.
  - rewrite C4, C3, C2, C1. unfold four_calls. rewrite <- !app_assoc. reflexivity.
  - congruence.
Qed.

(** The tests change the timings and the success rates of the record and
    nothing else. *)
Lemma tests_fields (network : Network) (contingency monitored injection : list string)
    (results r : ResultRecord) (w0 w4 : World Env) :
  tests network contingency monitored injection results w0 = (Ok r, w4) ->
  timestamp r = timestamp results /\ package r = package results
  /\ network_info r = network_info results /\ config r = config results.
Proof.
  unfold tests. intros Ht.
  apply PyEffFacts.bind_Ok in Ht as ([[e1 s1] p1] & w1 & H1 & Ht).
  apply PyEffFacts.bind_Ok in Ht as ([[e2 s2] p2] & w2 & H2 & Ht).
  apply PyEffFacts.bind_Ok in Ht as ([[e3 s3] p3] & w3 & H3 & Ht).
  apply PyEffFacts.bind_Ok in Ht as (r3 & w3' & Hr & Ht).
  apply PyEffFacts.bind_Ok in Ht as ([[e4 s4] p4] & w4' & H4 & Ht).
  unfold ret in Ht. injection Ht as <- _.
  assert (timestamp r3 = timestamp results /\ package r3 = package results
          /\ network_info r3 = network_info results /\ config r3 = config results)
    as (E1 & E2 & E3 & E4).
  { destruct s3; [destruct p3|]; unfold ret, raise in Hr; inversion Hr; auto. }
  destruct s4; simpl; auto.
Qed.

(** The tests return unless the solver is interrupted. *)
Lemma tests_return (network : Network) (contingency monitored injection : list string)
    (results : ResultRecord) (w0 : World Env) :
  (forall p, never_interrupted (lf_run_ac network p)) ->
  (forall p, never_interrupted (lf_run_dc network p)) ->
  (forall sa p, never_interrupted (security_run_dc sa network p)) ->
  (forall a, never_interrupted (sensitivity_run a network)) ->
  exists r w4, tests network contingency monitored injection results w0 = (Ok r, w4).
Proof.
  intros Hac Hdc Hsa Hse. unfold tests.
  destruct (timed_solver_returns _ _ _ "1. AC Power Flow" w0
              (ac_is_solver network) (Hac _)) as (e1 & s1 & p1 & w1 & H1 & _).
  unfold timed_ac_power_flow. rewrite (PyEffFacts.bind_step _ _ _ _ _ H1). cbv beta iota zeta.
  destruct (timed_solver_returns _ _ _ "2. DC Power Flow" w1
              (dc_is_solver network) (Hdc _)) as (e2 & s2 & p2 & w2 & H2 & _).
  unfold timed_dc_power_flow. rewrite (PyEffFacts.bind_step _ _ _ _ _ H2). cbv beta iota zeta.
  destruct (timed_solver_returns _ _ _
              ("3. DC N-1 Contingency Analysis (" +:+ str_of_nat (length contingency)
                 +:+ " contingencies)") w2
              (security_is_solver network contingency) (Hsa _ _))
    as (e3 & s3 & p3 & w3 & H3 & Hp3 & _).
  unfold timed_contingency_analysis.
  rewrite (PyEffFacts.bind_step _ _ _ _ _ H3). cbv beta iota zeta.
  destruct (timed_solver_returns _ _ _
              ("4. PTDF Matrix Calculation (base + " +:+ str_of_nat (length contingency)
                 +:+ " contingencies)")
              w3 (run_ptdf_analysis_run network contingency monitored injection) (Hse _))
    as (e4 & s4 & p4 & w4 & H4 & _).
  unfold timed_ptdf_calculation.
  destruct s3.
  - destruct p3 as [sa_result|]; [|now specialize (Hp3 eq_refl)].
    unfold bind at 1, ret at 1.
    rewrite (PyEffFacts.bind_step _ _ _ _ _ H4). cbv beta iota zeta.
    unfold ret. eauto.
  - unfold bind at 1, ret at 1.
    rewrite (PyEffFacts.bind_step _ _ _ _ _ H4). cbv beta iota zeta.
    unfold ret. eauto.
Qed.

(** *** The whole run *)

Lemma bench_print_step {A : Type} (s : string) (k : unit -> M (World Env) A)
    (w : World Env) :
  bind (print s) k w = k tt (snd (print s w)).
Proof. reflexivity. Qed.

Lemma bench_total_print (s : string) : total (print (Env := Env) s).
Proof. apply PyEffFacts.total_modify. Qed.

Lemma lib_step {A B : Type} (f : Env -> outcome A * Env) (k : A -> M (World Env) B)
    (w : World Env) :
  bind (lib f) k w
  = match fst (f (w_env w)) with
    | Ok a => k a {| w_env := snd (f (w_env w)); w_out := w_out w;
                     w_calls := w_calls w; w_files := w_files w |}
    | Raised e => (Raised e, {| w_env := snd (f (w_env w)); w_out := w_out w;
                                w_calls := w_calls w; w_files := w_files w |})
    end.
Proof. unfold bind, lib. now destruct (f (w_env w)) as [[a|e] env']. Qed.

Lemma gets_step {A B : Type} (f : World Env -> A) (k : A -> M (World Env) B)
    (w : World Env) :
  bind (gets f) k w = k (f w) w.
Proof. reflexivity. Qed.

(** A loop that only prints returns and leaves the rest of the world. *)
Lemma for_each_prints {A : Type} (l : list A) (body : A -> M (World Env) unit)
    (w : World Env) :
  (forall x, exists s, body x = print s) ->
  exists w', for_each l body w = (Ok tt, w')
             /\ w_env w' = w_env w /\ w_calls w' = w_calls w /\ w_files w' = w_files w.
Proof.
  intros Hb. revert w. induction l as [|x l IH]; intros w; simpl.
  - exists w. auto.
  - destruct (Hb x) as [s ->]. rewrite bench_print_step.
    destruct (IH (snd (print s w))) as (w' & E & He & Hc & Hf).
    exists w'. auto.
Qed.

(** [main] in three steps: loading the network, the tests, the report. *)
Lemma main_steps (w : World Env) :
  exists w0,
    w_calls w0 = w_calls w /\ w_files w0 = w_files w
    /\ w_env w0 = snd (pn_load "./Test System/SmallSystem_case.raw" (w_env w))
    /\ match fst (pn_load "./Test System/SmallSystem_case.raw" (w_env w)) with
       | Raised e => exists w1, main w = (Raised e, w1)
                                /\ w_calls w1 = w_calls w /\ w_files w1 = w_files w
       | Ok network =>
           match tests network
                   (contingency_branches num_contingencies (get_branches network))
                   (monitored_branches num_monitored (get_branches network))
                   (injection_points (get_generators network) (get_loads network))
                   (initial_results network (datetime_now_isoformat (w_env w0))) w0 with
           | (Raised e, w4) => main w = (Raised e, w4)
           | (Ok r, w4) =>
               exists w', main w = (Ok tt, w')
                          /\ w_env w' = w_env w4 /\ w_calls w' = w_calls w4
                          /\ w_files w' = <["powsybl_results.json" := FResults r]> (w_files w4)
           end
       end.
Proof.
  unfold main. rewrite !bench_print_step. rewrite lib_step.
  cbn [snd print write modify w_env].
  destruct (pn_load "./Test System/SmallSystem_case.raw" (w_env w)) as [[network|e] env0];
    cbn [fst snd].
  2: { exists {| w_env := env0; w_out := w_out w; w_calls := w_calls w; w_files := w_files w |}.
       do 3 (split; [reflexivity|]). eexists. split; [reflexivity|]. split; reflexivity. }
  cbv zeta. rewrite !bench_print_step. rewrite gets_step. rewrite !bench_print_step.
  match goal with
  | |- context [bind (tests _ _ _ _ ?res) _ ?wx] =>
      exists wx; split; [reflexivity|]; split; [reflexivity|]; split; [reflexivity|];
      change res with (initial_results network (datetime_now_isoformat (w_env wx)));
      generalize wx; intros w0
  end.
  rewrite PyEffFacts.bind_cases.
  destruct (tests network _ _ _ _ w0) as [[r|e] w4]; [|reflexivity].
  unfold bind at 1, json_dump at 1, modify at 1. rewrite !bench_print_step.
  match goal with
  | |- context [bind (for_each _ ?body) _ ?wx] =>
      destruct (for_each_prints (timing_ms r) body wx) as (wa & Ea & Eae & Eac & Eaf)
  end.
  { intros [k [t|]]; eauto. }
  rewrite (PyEffFacts.bind_step _ _ _ _ _ Ea). rewrite !bench_print_step.
  match goal with
  | |- context [bind (for_each _ ?body) _ ?wx] =>
      destruct (for_each_prints (success_rates r) body wx) as (wb & Eb & Ebe & Ebc & Ebf)
  end.
  { intros x; eauto. }
  rewrite (PyEffFacts.bind_step _ _ _ _ _ Eb). rewrite !bench_print_step.
  eexists. split; [reflexivity|].
  cbn [snd print write modify w_env w_calls w_files] in *.
  repeat split; congruence.
Qed.

(** A run of [main] that reached its end, step by step. *)
Lemma main_Ok_steps (w w' : World Env) :
  main w = (Ok tt, w') ->
  exists network r w0 w4,
    fst (pn_load "./Test System/SmallSystem_case.raw" (w_env w)) = Ok network
    /\ w_env w0 = snd (pn_load "./Test System/SmallSystem_case.raw" (w_env w))
    /\ w_calls w0 = w_calls w /\ w_files w0 = w_files w
    /\ tests network
         (contingency_branches num_contingencies (get_branches network))
         (monitored_branches num_monitored (get_branches network))
         (injection_points (get_generators network) (get_loads network))
         (initial_results network (datetime_now_isoformat (w_env w0))) w0 = (Ok r, w4)
    /\ w_env w' = w_env w4 /\ w_calls w' = w_calls w4
    /\ w_files w' = <["powsybl_results.json" := FResults r]> (w_files w4).
Proof.
  intros Hm. destruct (main_steps w) as (w0 & Hc & Hf & He & Hs).
  destruct (fst (pn_load _ (w_env w))) as [network|e].
  - destruct (tests network _ _ _ _ w0) as [[r|e] w4] eqn:Ht.
    + destruct Hs as (w'' & Hm' & H1 & H2 & H3).
      rewrite Hm in Hm'. injection Hm' as <-.
      exists network, r, w0, w4. repeat split; auto.
    + rewrite Hm in Hs. discriminate.
  - destruct Hs as (w1 & Hm' & _). rewrite Hm in Hm'. discriminate.
Qed.

(** X5. When loading the network raises, [main] ends with that exception
    before any test: no solver call is made and no file is written. *)
Theorem main_stops_when_the_network_does_not_load (w : World Env) (e : exn) :
  fst (pn_load "./Test System/SmallSystem_case.raw" (w_env w)) = Raised e ->
  exists w1, main w = (Raised e, w1)
             /\ w_calls w1 = w_calls w /\ w_files w1 = w_files w.
Proof.
  intros Hl. destruct (main_steps w) as (w0 & _ & _ & _ & Hs).
  rewrite Hl in Hs. exact Hs.
Qed.

(** X6. When the network loads and no solver call is interrupted, [main]
    reaches its end whatever tests fail: it stores a record, and the
    record has the four timing keys. *)
Theorem main_completes_when_tests_fail (w : World Env) (network : Network) :
  fst (pn_load "./Test System/SmallSystem_case.raw" (w_env w)) = Ok network ->
  (forall p, never_interrupted (lf_run_ac network p)) ->
  (forall p, never_interrupted (lf_run_dc network p)) ->
  (forall sa p, never_interrupted (security_run_dc sa network p)) ->
  (forall a, never_interrupted (sensitivity_run a network)) ->
  exists w' r,
    main w = (Ok tt, w')
    /\ w_files w' !! "powsybl_results.json" = Some (FResults r)
    /\ map fst (timing_ms r)
       = ["ac_power_flow"; "dc_power_flow"; "dc_contingency_analysis"; "ptdf_calculation"].
Proof.
  intros Hl Hac Hdc Hsa Hse. destruct (main_steps w) as (w0 & _ & _ & _ & Hs).
  rewrite Hl in Hs.
  destruct (tests_return network
              (contingency_branches num_contingencies (get_branches network))
              (monitored_branches num_monitored (get_branches network))
              (injection_points (get_generators network) (get_loads network))
              (initial_results network (datetime_now_isoformat (w_env w0))) w0
              Hac Hdc Hsa Hse) as (r & w4 & Ht).
  rewrite Ht in Hs. destruct Hs as (w' & Hm & _ & _ & Hf).
  exists w', r. split; [exact Hm|]. split.
  - rewrite Hf. apply lookup_insert_eq.
  - apply BenchmarkFacts.tests_Ok in Ht as (o1 & o2 & o3 & o4 & _ & Htm & _).
    rewrite Htm. reflexivity.
Qed.

(** X7. A run of [main] that reaches its end has made four solver calls,
    in this order: the AC power flow, the DC power flow, one security
    analysis with all contingencies and one sensitivity analysis with the
    factor matrix and all contingencies; a failed test does not stop the
    next one. *)
Theorem complete_run_makes_four_solver_calls (w w' : World Env) :
  main w = (Ok tt, w') ->
  exists network,
    fst (pn_load "./Test System/SmallSystem_case.raw" (w_env w)) = Ok network
    /\ w_calls w'
       = (w_calls w
          ++ four_calls network
               (contingency_branches num_contingencies (get_branches network))
               (monitored_branches num_monitored (get_branches network))
               (injection_points (get_generators network) (get_loads network)))%list.
Proof.
  intros Hm.
  apply main_Ok_steps in Hm
    as (network & r & w0 & w4 & Hl & _ & Hc0 & _ & Ht & _ & Hc & _).
  exists network. split; [exact Hl|].
  apply tests_store in Ht as [Hc4 _]. congruence.
Qed.

(** X8. The record stored by a run of [main] that reaches its end names
    the package PowSyBl, carries the time read after loading, the sizes of
    the network, and as configuration the sizes of the selections: at most
    500 contingencies, 1000 monitored branches and 250 generators plus 250
    loads, fewer when the network has fewer. *)
Theorem record_describes_the_run (w w' : World Env) :
  main w = (Ok tt, w') ->
  exists network r,
    fst (pn_load "./Test System/SmallSystem_case.raw" (w_env w)) = Ok network
    /\ w_files w' !! "powsybl_results.json" = Some (FResults r)
    /\ package r = "PowSyBl"
    /\ timestamp r
       = datetime_now_isoformat
           (snd (pn_load "./Test System/SmallSystem_case.raw" (w_env w)))
    /\ network_info r
       = {| buses := length (get_buses network);
            branches := length (get_branches network);
            generators := length (get_generators network);
            loads := length (get_loads network) |}
    /\ config r
       = {| contingencies := min 500 (length (get_branches network));
            Schema.monitored_branches := min 1000 (length (get_branches network));
            Schema.injection_points :=
              min 250 (length (get_generators network))
              + min 250 (length (get_loads network)) |}.
Proof.
  intros Hm.
  apply main_Ok_steps in Hm
    as (network & r & w0 & w4 & Hl & He & _ & _ & Ht & _ & _ & Hf).
  exists network, r. split; [exact Hl|]. split.
  { rewrite Hf. apply lookup_insert_eq. }
  apply tests_fields in Ht as (E1 & E2 & E3 & E4).
  rewrite E1, E2, E3, E4. simpl. rewrite He.
  repeat split.
  unfold contingency_branches, monitored_branches, injection_points,
    num_contingencies, num_monitored.
  now rewrite length_app, !length_take, !sorted_length.
Qed.

(** X9. In the record stored by a run of [main] that reaches its end, the
    success rate [ptdf] is there, with the text [calculation_completed],
    exactly when the timed PTDF call succeeded, and the success rates have
    no other keys than [dc_contingency] and [ptdf]. *)
Theorem success_rate_keys (w w' : World Env) :
  main w = (Ok tt, w') ->
  exists r network w0 w4 o1 o2 o3 o4,
    w_files w' !! "powsybl_results.json" = Some (FResults r)
    /\ tests_run network
         (contingency_branches num_contingencies (get_branches network))
         (monitored_branches num_monitored (get_branches network))
         (injection_points (get_generators network) (get_loads network))
         w0 w4 o1 o2 o3 o4
    /\ get "ptdf" (success_rates r)
       = (if snd (fst o4) then Some "calculation_completed" else None)
    /\ (forall k v, get k (success_rates r) = Some v ->
                    k = "dc_contingency" \/ k = "ptdf").
Proof.
  intros Hm.
  apply BenchmarkFacts.main_Ok in Hm
    as (network & r & w0 & w4 & results & _ & _ & _ & Hs & Ht & Hf).
  apply BenchmarkFacts.tests_Ok in Ht
    as (o1 & o2 & o3 & o4 & Hrun & _ & rates & Hrates & Hr).
  exists r, network, w0, w4, o1, o2, o3, o4.
  split; [exact Hf|]. split; [exact Hrun|].
  rewrite Hr. rewrite Hs in Hrates.
  destruct o3 as [[e3 [|]] [sa_result|]]; try contradiction; subst rates;
    destruct (snd (fst o4)); (split; [reflexivity|]); intros k v; simpl;
    repeat match goal with
           | |- context [String.eqb ?a ?b] =>
               destruct (String.eqb_spec a b); [subst; auto|]
           end;
    discriminate.
Qed.

End WithLibrary.

#[local] Existing Instance Examples.Bench.library.

Lemma time_operation_lets_interrupts_through_witness :
  time_operation Examples.Bench.interrupted "1. AC Power Flow" Examples.Bench.world
  = (Raised (Exn BaseOnly "KeyboardInterrupt"),
     {| w_env := 100%Z; w_out := ["1. AC Power Flow..."]; w_calls := []; w_files := ∅ |}).
Proof.
  apply (time_operation_lets_interrupts_through
           Examples.Bench.interrupted "1. AC Power Flow" Examples.Bench.world);
    reflexivity.
Defined.

Lemma main_stops_when_the_network_does_not_load_witness :
  exists w1,
    main (L := Examples.Bench.library_without_model) Examples.Bench.world
    = (Raised (Exn OtherException "file not found"), w1)
    /\ w_calls w1 = [] /\ w_files w1 = ∅.
Proof.
  apply (main_stops_when_the_network_does_not_load
           (L := Examples.Bench.library_without_model) Examples.Bench.world).
  reflexivity.
Defined.

Lemma main_completes_when_tests_fail_witness :
  exists w' r,
    main Examples.Bench.world = (Ok tt, w')
    /\ w_files w' !! "powsybl_results.json" = Some (FResults r)
    /\ map fst (timing_ms r)
       = ["ac_power_flow"; "dc_power_flow"; "dc_contingency_analysis"; "ptdf_calculation"].
Proof.
  apply (main_completes_when_tests_fail Examples.Bench.world Examples.Bench.network).
  - reflexivity.
  - intros p s e He. discriminate He.
  - intros p s e He. injection He as <-. discriminate.
  - intros sa p s e He. discriminate He.
  - intros a s e He. discriminate He.
Defined.

Lemma complete_run_makes_four_solver_calls_witness :
  exists network,
    fst (pn_load "./Test System/SmallSystem_case.raw" (w_env Examples.Bench.world))
    = Ok network
    /\ w_calls (snd (main Examples.Bench.world))
       = (w_calls Examples.Bench.world
          ++ four_calls network
               (contingency_branches num_contingencies (get_branches network))
               (monitored_branches num_monitored (get_branches network))
               (injection_points (get_generators network) (get_loads network)))%list.
Proof.
  exact (complete_run_makes_four_solver_calls _ _ BenchmarkFacts.example_run_completes).
Defined.

Lemma record_describes_the_run_witness :
  exists network r,
    fst (pn_load "./Test System/SmallSystem_case.raw" (w_env Examples.Bench.world))
    = Ok network
    /\ w_files (snd (main Examples.Bench.world)) !! "powsybl_results.json"
       = Some (FResults r)
    /\ package r = "PowSyBl"
    /\ timestamp r
       = datetime_now_isoformat
           (snd (pn_load "./Test System/SmallSystem_case.raw"
                   (w_env Examples.Bench.world)))
    /\ network_info r
       = {| buses := length (get_buses network);
            branches := length (get_branches network);
            generators := length (get_generators network);
            loads := length (get_loads network) |}
    /\ config r
       = {| contingencies := min 500 (length (get_branches network));
            Schema.monitored_branches := min 1000 (length (get_branches network));
            Schema.injection_points :=
              min 250 (length (get_generators network))
              + min 250 (length (get_loads network)) |}.
Proof.
  exact (record_describes_the_run _ _ BenchmarkFacts.example_run_completes).
Defined.

Lemma success_rate_keys_witness :
  exists r network w0 w4 o1 o2 o3 o4,
    w_files (snd (main Examples.Bench.world)) !! "powsybl_results.json"
    = Some (FResults r)
    /\ tests_run network
         (contingency_branches num_contingencies (get_branches network))
         (monitored_branches num_monitored (get_branches network))
         (injection_points (get_generators network) (get_loads network))
         w0 w4 o1 o2 o3 o4
    /\ get "ptdf" (success_rates r)
       = (if snd (fst o4) then Some "calculation_completed" else None)
    /\ (forall k v, get k (success_rates r) = Some v ->
                    k = "dc_contingency" \/ k = "ptdf").
Proof.
  exact (success_rate_keys _ _ BenchmarkFacts.example_run_completes).
Defined.

End BenchmarkMore.

(** ** More on [run_comparison.py] *)

Module ComparisonMore.
Import PyFloat PyStr PyDict PyEff Schema RunComparison.
Local Open Scope string_scope.

(** *** The texts of a row *)

Lemma contains_append (c : ascii) (s1 s2 : string) :
  contains c (s1 +:+ s2) = contains c s1 || contains c s2.
Proof.
  induction s1 as [|x s1 IH]; simpl; [reflexivity|].
  rewrite IH. now rewrite orb_assoc.
Qed.

(** A number printed with two decimals has a decimal point, unless it is
    an infinity or not a number. *)
Lemma format_2f_not_FAILED (x : float) : format_2f x <> "FAILED".
Proof.
  destruct x as [s|s| |s m e]; simpl; try (destruct s; discriminate); try discriminate.
  intros E.
  assert (Hc : contains "." "FAILED" = true).
  { rewrite <- E. rewrite !contains_append. simpl. now rewrite !orb_true_r. }
  discriminate Hc.
Qed.

Lemma speedup_text_not_NA (s : string) : s +:+ "x" <> "N/A".
Proof.
  destruct s as [|c1 [|c2 [|c3 [|c4 s]]]]; simpl; intros E; discriminate E.
Qed.

(** X16. In a row, the speedup is [N/A] exactly when one of the two
    timings is missing (absent or null), and so is the faster engine: a
    row never shows [N/A] for a key that both records timed. *)
Theorem row_is_NA_exactly_when_a_timing_is_missing
    (powsybl_timing powermodels_timing : dict (option float)) (test_name : string) :
  let row := comparison_row powsybl_timing powermodels_timing test_name in
  let missing := timing_get test_name powsybl_timing = None
                 \/ timing_get test_name powermodels_timing = None in
  (Speedup row = "N/A" <-> missing) /\ (Faster row = "N/A" <-> missing).
Proof.
  cbv zeta. unfold comparison_row.
  destruct (timing_get test_name powsybl_timing) as [pt|],
           (timing_get test_name powermodels_timing) as [mt|]; simpl.
  - split; split.
    + intros E. now apply speedup_text_not_NA in E.
    + intros [E|E]; discriminate E.
    + destruct (ltb mt pt); discriminate.
    + intros [E|E]; discriminate E.
  - split; split; auto.
  - split; split; auto.
  - split; split; auto.
Qed.

(** X17. In a row, a time column reads [FAILED] exactly when the record
    of that engine has no timing for the key; a timing that is there is
    never printed as [FAILED]. *)
Theorem row_reads_FAILED_exactly_when_the_timing_is_missing
    (powsybl_timing powermodels_timing : dict (option float)) (test_name : string) :
  let row := comparison_row powsybl_timing powermodels_timing test_name in
  (PowSyBl_ms row = "FAILED" <-> timing_get test_name powsybl_timing = None)
  /\ (PowerModels_ms row = "FAILED" <-> timing_get test_name powermodels_timing = None).
Proof.
  cbv zeta. unfold comparison_row.
  destruct (timing_get test_name powsybl_timing) as [pt|],
           (timing_get test_name powermodels_timing) as [mt|]; simpl;
    split; split; auto; try discriminate;
    intros E; now apply format_2f_not_FAILED in E.
Qed.

(** *** The names of the reports *)

Lemma append_length (s t : string) :
  String.length (s +:+ t) = (String.length s + String.length t)%nat.
Proof. induction s as [|c s IH]; simpl; [reflexivity|now rewrite IH]. Qed.

Lemma append_inj_r (s t q : string) : s +:+ q = t +:+ q -> s = t.
Proof.
  revert t. induction s as [|c s IH]; intros [|d t] E.
  - reflexivity.
  - apply (f_equal String.length) in E. rewrite !append_length in E.
    cbn [String.length] in E. lia.
  - apply (f_equal String.length) in E. rewrite !append_length in E.
    cbn [String.length] in E. lia.
  - simpl in E. injection E as -> E. f_equal. now apply IH.
Qed.

Lemma report_name_inj (t1 t2 : string) : report_name t1 = report_name t2 -> t1 = t2.
Proof.
  unfold report_name. simpl. intros E.
  injection E as E. change ("" +:+ t1 +:+ ".json") with (t1 +:+ ".json") in E.
  change ("" +:+ t2 +:+ ".json") with (t2 +:+ ".json") in E.
  now apply append_inj_r in E.
Qed.

(** *** What the steps of the script touch *)

Lemma same_store_refl {Env : Type} (w : World Env) : same_store w w.
Proof. now repeat split. Qed.

Lemma same_store_trans {Env : Type} (w w1 w2 : World Env) :
  same_store w w1 -> same_store w1 w2 -> same_store w w2.
Proof. unfold same_store. intros (? & ? & ?) (? & ? & ?). repeat split; congruence. Qed.

Section WithSystem.
Context {Env : Type} {sys : System Env}.

Lemma only_prints_print (s : string) : only_prints (print (Env := Env) s).
Proof. intros w. eexists tt, _. split; [reflexivity|]. now repeat split. Qed.

Lemma only_prints_ret {A : Type} (a : A) : only_prints (ret (W := World Env) a).
Proof. intros w. exists a, w. split; [reflexivity|apply same_store_refl]. Qed.

Lemma only_prints_path_exists (path : string) :
  only_prints (path_exists (Env := Env) path).
Proof. intros w. eexists _, w. split; [reflexivity|apply same_store_refl]. Qed.

Lemma only_prints_bind {A B : Type} (c : M (World Env) A) (k : A -> M (World Env) B) :
  only_prints c -> (forall a, only_prints (k a)) -> only_prints (bind c k).
Proof.
  intros Hc Hk w. destruct (Hc w) as (a & w1 & E & S1).
  destruct (Hk a w1) as (b & w2 & E2 & S2).
  exists b, w2. split.
  - now rewrite (PyEffFacts.bind_step _ _ _ _ _ E).
  - eapply same_store_trans; eauto.
Qed.

Lemma only_prints_when (b : bool) (c : M (World Env) unit) :
  only_prints c -> only_prints (when b c).
Proof. destruct b; simpl; auto using only_prints_ret. Qed.

Lemma only_prints_for_each {A : Type} (l : list A) (body : A -> M (World Env) unit) :
  (forall x, only_prints (body x)) -> only_prints (for_each l body).
Proof.
  intros Hb. induction l as [|x l IH]; simpl.
  - apply only_prints_ret.
  - apply only_prints_bind; auto.
Qed.

(** A sequence whose first part only prints returns [v] when what follows
    returns [v] and only prints. *)
Lemma bind_only_prints_value {A B : Type} (c : M (World Env) A)
    (k : A -> M (World Env) B) (v : B) :
  only_prints c ->
  (forall a w1, exists w', k a w1 = (Ok v, w') /\ same_store w1 w') ->
  forall w, exists w', bind c k w = (Ok v, w') /\ same_store w w'.
Proof.
  intros Hc Hk w. destruct (Hc w) as (a & w1 & E & S1).
  destruct (Hk a w1) as (w' & E2 & S2).
  exists w'. split.
  - now rewrite (PyEffFacts.bind_step _ _ _ _ _ E).
  - eapply same_store_trans; eauto.
Qed.

(** What loading returns, and that it only prints. *)
Lemma load_json_results_value (filename : string) (w : World Env) :
  exists w1,
    load_json_results filename w = (Ok (stored_record (w_files w) filename), w1)
    /\ same_store w w1
    /\ (forall r, stored_record (w_files w) filename = Some r -> w1 = w).
Proof.
  unfold stored_record.
  destruct (w_files w !! filename) as [[r|err]|] eqn:E.
  - rewrite (ComparisonFacts.load_json_results_present _ r) by assumption.
    exists w. split; [reflexivity|]. split; [apply same_store_refl|auto].
  - rewrite (ComparisonFacts.load_json_results_unreadable _ err) by assumption.
    eexists. split; [reflexivity|]. split; [now repeat split|discriminate].
  - rewrite ComparisonFacts.load_json_results_missing by assumption.
    eexists. split; [reflexivity|]. split; [now repeat split|discriminate].
Qed.

Lemma compare_timing_results_value (a b : option ResultRecord) (w : World Env) :
  exists w1,
    compare_timing_results a b w = (Ok (timing_table a b), w1) /\ same_store w w1.
Proof.
  unfold compare_timing_results, timing_table.
  destruct a as [a|]; [destruct b as [b|]|];
    unfold bind, print, write, modify, ret; simpl;
    eexists; (split; [reflexivity|now repeat split]).
Qed.

Lemma only_prints_compare_success_rates (a b : option ResultRecord) :
  only_prints (compare_success_rates (Env := Env) a b).
Proof.
  unfold compare_success_rates.
  repeat (apply only_prints_bind; [apply only_prints_print|intros _]).
  destruct a as [a|]; [destruct b as [b|]|]; try apply only_prints_print.
  repeat (apply only_prints_bind; [|intros _]);
    try apply only_prints_print;
    apply only_prints_for_each; intros x; apply only_prints_print.
Qed.

Lemma only_prints_compare_ptdf_matrices :
  only_prints (compare_ptdf_matrices (Env := Env)).
Proof.
  unfold compare_ptdf_matrices.
  repeat (apply only_prints_bind; [apply only_prints_print|intros _]).
  apply only_prints_print.
Qed.

(** X11. Loading a results file never raises and never changes a file:
    it returns the record when the file holds one, printing nothing, and
    [None] in every other case. *)
Theorem load_json_results_only_reads (filename : string) (w : World Env) :
  fst (load_json_results filename w) = Ok (stored_record (w_files w) filename)
  /\ same_store w (snd (load_json_results filename w))
  /\ (forall r, w_files w !! filename = Some (FResults r) ->
                load_json_results filename w = (Ok (Some r), w))
  /\ (fst (load_json_results filename w) = Ok None <->
      forall r, w_files w !! filename <> Some (FResults r)).
Proof.
  destruct (load_json_results_value filename w) as (w1 & E & S & Hq).
  rewrite E. simpl. split; [reflexivity|]. split; [exact S|]. split.
  - intros r Hr. f_equal.
    + unfold stored_record. now rewrite Hr.
    + apply (Hq r). unfold stored_record. now rewrite Hr.
  - unfold stored_record. destruct (w_files w !! filename) as [[r|err]|]; split;
      try discriminate; try reflexivity; intros Hn.
    now specialize (Hn r).
Qed.

(** X12. The three comparison steps never raise and change nothing but
    the output: not the environment, not a file, not a report. *)
Theorem comparisons_only_print (a b : option ResultRecord) :
  only_prints (compare_timing_results a b)
  /\ only_prints (compare_success_rates (Env := Env) a b)
  /\ only_prints (compare_ptdf_matrices (Env := Env)).
Proof.
  split; [|split].
  - intros w. destruct (compare_timing_results_value a b w) as (w1 & E & S). eauto.
  - apply only_prints_compare_success_rates.
  - apply only_prints_compare_ptdf_matrices.
Qed.

(** X10. What [run_command] makes of a launched program: exit code 0 is a
    success with the captured output, another exit code a failure with the
    captured output, a timeout a failure with the text [Timeout after 30
    minutes], another exception a failure with the text of the exception;
    only an exception outside [Exception] leaves [run_command].  The
    environment and the files are as the program left them. *)
Theorem run_command_classifies (command description : string) (w : World Env) :
  let r := subprocess_run command (w_env w) (w_files w) in
  fst (run_command command description w)
  = match fst (fst r) with
    | Ok result => Ok ((returncode result =? 0)%Z, stdout result, stderr result)
    | Raised e =>
        match class e with
        | TimeoutExpired => Ok (false, "", "Timeout after 30 minutes")
        | BaseOnly => Raised e
        | _ => Ok (false, "", message e)
        end
    end
  /\ w_env (snd (run_command command description w)) = snd (fst r)
  /\ w_files (snd (run_command command description w)) = snd r
  /\ w_reports (snd (run_command command description w)) = w_reports w.
Proof.
  intros r. subst r. unfold run_command.
  unfold bind, print, write, modify, try_except, run_subprocess. simpl.
  destruct (subprocess_run command (w_env w) (w_files w)) as [[[cp|e] env'] files'];
    simpl.
  - destruct (returncode cp =? 0)%Z; unfold when, ret;
      repeat match goal with
             | |- context [if negb ?b then _ else _] => destruct b; simpl
             end;
      auto.
  - destruct e as [[] text]; simpl; auto.
Qed.

(** *** The whole run *)

Lemma save_comparison_report_run (df : option DataFrame) (a b : option ResultRecord)
    (w : World Env) :
  exists w1,
    save_comparison_report df a b w
    = (Ok (report_name (datetime_now_strftime (w_env w))), w1)
    /\ w_env w1 = w_env w /\ w_files w1 = w_files w
    /\ w_reports w1
       = <[report_name (datetime_now_strftime (w_env w)) :=
             {| report_timestamp := datetime_now_isoformat (w_env w);
                powsybl_results := a;
                powermodels_results := b;
                comparison_summary := df |}]> (w_reports w).
Proof.
  unfold save_comparison_report, bind, gets, modify, print, write, ret. simpl.
  eexists. split; [reflexivity|]. now repeat split.
Qed.

(** X13. Without the grid model [main] returns 1 at once: no program is
    launched, no old result file is removed and no report is written. *)
Theorem main_without_grid_model (w : World Env) :
  w_files w !! test_system = None ->
  w_reports w !! test_system = None ->
  exists w', main w = (Ok 1%Z, w') /\ same_store w w'.
Proof.
  intros Hf Hr. unfold main. rewrite !ComparisonFacts.print_step.
  unfold bind at 1, path_exists at 1, gets.
  cbn [snd print write modify w_files w_reports].
  rewrite Hf, Hr. rewrite !bool_decide_eq_false_2 by apply is_Some_None.
  cbn [orb negb].
  rewrite !ComparisonFacts.print_step. unfold ret.
  eexists. split; [reflexivity|]. now repeat split.
Qed.

(** X14. With the grid model there and no program interrupted, [main]
    removes the old result files, runs the PowSyBl program and then, in
    the environment and on the files that it left, the PowerModels.jl
    program, whether the first one succeeded or not; it leaves the files
    as the second program left them and saves a report with the records
    found in those files and the table made of them, which is null unless
    both records are there. *)
Theorem main_reports_what_the_programs_left (w : World Env) :
  let files1 := delete "powermodels_results.json"
                  (delete "powsybl_results.json" (w_files w)) in
  let r1 := subprocess_run "python3 benchmark_powsybl.py" (w_env w) files1 in
  let r2 := subprocess_run "julia benchmark_powermodels.jl" (snd (fst r1)) (snd r1) in
  let env2 := snd (fst r2) in
  let files3 := snd r2 in
  let a := stored_record files3 "powsybl_results.json" in
  let b := stored_record files3 "powermodels_results.json" in
  is_Some (w_files w !! test_system) ->
  (forall e, fst (fst r1) = Raised e -> class e <> BaseOnly) ->
  (forall e, fst (fst r2) = Raised e -> class e <> BaseOnly) ->
  exists w',
    main w = (Ok (if succeeded (fst (fst r1)) && succeeded (fst (fst r2))
                  then 0 else 1)%Z, w')
    /\ w_env w' = env2
    /\ w_files w' = files3
    /\ w_reports w' !! report_name (datetime_now_strftime env2)
       = Some {| report_timestamp := datetime_now_isoformat env2;
                 powsybl_results := a;
                 powermodels_results := b;
                 comparison_summary := timing_table a b |}.
Proof.
  intros files1 r1 r2 env2 files3 a b Hfound H1 H2. unfold main.
  rewrite !ComparisonFacts.print_step.
  match goal with
  | |- exists _, bind _ _ ?wx = _ /\ _ =>
      set (w0 := wx);
      assert (E0 : w_env w0 = w_env w /\ w_files w0 = w_files w)
        by (split; reflexivity);
      clearbody w0
  end.
  destruct E0 as (Ee & Ef).
  unfold bind at 1, path_exists at 1, gets. rewrite Ef.
  rewrite (bool_decide_eq_true_2 _ Hfound). cbn [orb negb].
  rewrite ComparisonFacts.print_step. cbn [for_each].
  match goal with
  | |- exists _, bind _ _ ?wx = _ /\ _ =>
      set (wa := wx);
      assert (Ea : w_env wa = w_env w /\ w_files wa = w_files w)
        by (split; [rewrite <- Ee|rewrite <- Ef]; reflexivity);
      clearbody wa
  end.
  clear w0 Ee Ef. destruct Ea as (Ee & Ef).
  rewrite PyEffFacts.bind_assoc.
  destruct (ComparisonFacts.cleanup_step "powsybl_results.json" wa)
    as (wb & Eb & Ebe & Ebf).
  rewrite (PyEffFacts.bind_step _ _ _ _ _ Eb).
  rewrite PyEffFacts.bind_assoc.
  destruct (ComparisonFacts.cleanup_step "powermodels_results.json" wb)
    as (wc & Ec & Ece & Ecf).
  rewrite (PyEffFacts.bind_step _ _ _ _ _ Ec).
  unfold bind at 1, ret at 1.
  assert (Ewe : w_env wc = w_env w) by congruence.
  assert (Ewf : w_files wc = files1) by (unfold files1; congruence).
  clear Eb Ec Ebe Ebf Ece Ecf Ee Ef wa wb.
  destruct (ComparisonFacts.run_command_outcome "python3 benchmark_powsybl.py"
              "RUNNING POWSYBL BENCHMARK" wc) as (o1 & wd & Ed & Ede & Edf).
  { rewrite Ewe, Ewf. exact H1. }
  rewrite Ewe, Ewf in Ed, Ede, Edf. fold r1 in Ed, Ede, Edf.
  rewrite (PyEffFacts.bind_step _ _ _ _ _ Ed). cbv beta iota.
  destruct (ComparisonFacts.run_command_outcome "julia benchmark_powermodels.jl"
              "RUNNING POWERMODELS.JL BENCHMARK" wd) as (o2 & we & Eg & Ege & Egf).
  { rewrite Ede, Edf. exact H2. }
  rewrite Ede, Edf in Eg, Ege, Egf. fold r2 in Eg, Ege, Egf.
  fold env2 in Ege. fold files3 in Egf.
  rewrite (PyEffFacts.bind_step _ _ _ _ _ Eg). cbv beta iota.
  clear Ed Eg Ede Edf Ewe Ewf wc wd.
  generalize (succeeded (fst (fst r1))) (succeeded (fst (fst r2))). intros s1 s2.
  rewrite !ComparisonFacts.print_step.
  match goal with
  | |- exists _, bind _ _ ?wx = _ /\ _ =>
      set (wp := wx);
      assert (Ep : w_env wp = env2 /\ w_files wp = files3)
        by (split; [rewrite <- Ege|rewrite <- Egf]; reflexivity);
      clearbody wp
  end.
  clear Ege Egf we. destruct Ep as (Epe & Epf).
  destruct (load_json_results_value "powsybl_results.json" wp) as (wl & El & (Sle & Slf & _) & _).
  rewrite (PyEffFacts.bind_step _ _ _ _ _ El). rewrite Epf. fold a.
  destruct (load_json_results_value "powermodels_results.json" wl)
    as (wm & Em & (Sme & Smf & _) & _).
  rewrite (PyEffFacts.bind_step _ _ _ _ _ Em). rewrite Slf, Epf. fold b.
  destruct (only_prints_when (truthy a) _ (only_prints_print "✅ PowSyBl results loaded") wm)
    as (u1 & wn & En & (Sne & Snf & _)).
  rewrite (PyEffFacts.bind_step _ _ _ _ _ En).
  destruct (only_prints_when (truthy b) _
              (only_prints_print "✅ PowerModels.jl results loaded") wn)
    as (u2 & wo & Eo & (Soe & Sof & _)).
  rewrite (PyEffFacts.bind_step _ _ _ _ _ Eo).
  destruct (compare_timing_results_value a b wo) as (wq & Eq & (Sqe & Sqf & _)).
  rewrite (PyEffFacts.bind_step _ _ _ _ _ Eq).
  destruct (only_prints_compare_success_rates a b wq) as (u3 & wr & Er & (Sre & Srf & _)).
  rewrite (PyEffFacts.bind_step _ _ _ _ _ Er).
  destruct (only_prints_compare_ptdf_matrices wr) as (u4 & ws & Es & (Sse & Ssf & _)).
  rewrite (PyEffFacts.bind_step _ _ _ _ _ Es).
  destruct (save_comparison_report_run (timing_table a b) a b ws)
    as (wt & Et & Ste & Stf & Str).
  rewrite (PyEffFacts.bind_step _ _ _ _ _ Et).
  assert (Ete : w_env ws = env2) by congruence.
  rewrite Ete in Str.
  assert (Htail : forall v (c : M (World Env) Z),
             (exists w', c wt = (Ok v, w') /\ same_store wt w') ->
             exists w', c wt = (Ok v, w') /\ w_env w' = env2 /\ w_files w' = files3
                        /\ w_reports w' !! report_name (datetime_now_strftime env2)
                           = Some {| report_timestamp := datetime_now_isoformat env2;
                                     powsybl_results := a;
                                     powermodels_results := b;
                                     comparison_summary := timing_table a b |}).
  { intros v c (w' & Ec & (Se & Sf & Sr)). exists w'. split; [exact Ec|].
    split; [congruence|]. split; [congruence|].
    rewrite Sr, Str. apply lookup_insert_eq. }
  apply Htail.
  repeat (apply bind_only_prints_value;
          [first [ apply only_prints_print
                 | apply only_prints_when, only_prints_print
                 | idtac ]
          | intros ? ? ]).
  - destruct (s1 && s2); [apply only_prints_print|].
    repeat (apply only_prints_bind; [|intros _]);
      auto using only_prints_print, only_prints_when.
  - repeat (apply only_prints_bind; [|intros ?]);
      try apply only_prints_path_exists; try apply only_prints_ret;
      match goal with
      | |- only_prints (if ?c then _ else _) => destruct c; apply only_prints_print
      end.
  - unfold ret. eexists. split; [reflexivity|apply same_store_refl].
Qed.

(** X15. A report is stored under a name made of the time of the save.
    A later save at another time leaves the earlier report in place beside
    the new one; a later save at the same time replaces it. *)
Theorem reports_accumulate (df df2 : option DataFrame)
    (a b a2 b2 : option ResultRecord) (w w2 : World Env) :
  let t1 := datetime_now_strftime (w_env w) in
  let t2 := datetime_now_strftime (w_env w2) in
  let report1 := {| report_timestamp := datetime_now_isoformat (w_env w);
                    powsybl_results := a; powermodels_results := b;
                    comparison_summary := df |} in
  let report2 := {| report_timestamp := datetime_now_isoformat (w_env w2);
                    powsybl_results := a2; powermodels_results := b2;
                    comparison_summary := df2 |} in
  let after := snd (save_comparison_report df2 a2 b2 w2) in
  w_reports w2 = w_reports (snd (save_comparison_report df a b w)) ->
  fst (save_comparison_report df a b w) = Ok (report_name t1)
  /\ fst (save_comparison_report df2 a2 b2 w2) = Ok (report_name t2)
  /\ w_reports after !! report_name t2 = Some report2
  /\ (t1 <> t2 -> report_name t1 <> report_name t2
                  /\ w_reports after !! report_name t1 = Some report1)
  /\ (t1 = t2 -> w_reports after !! report_name t1 = Some report2).
Proof.
  intros t1 t2 report1 report2 after Hw. subst after.
  destruct (save_comparison_report_run df a b w) as (w1 & E1 & _ & _ & R1).
  destruct (save_comparison_report_run df2 a2 b2 w2) as (w3 & E2 & _ & _ & R2).
  rewrite E1 in Hw. rewrite E1, E2. simpl in *.
  fold t1 in R1. fold t2 in R2. fold report1 in R1. fold report2 in R2.
  split; [reflexivity|]. split; [reflexivity|].
  rewrite R2, Hw, R1. split; [apply lookup_insert_eq|]. split.
  - intros Hne.
    assert (Hn : report_name t1 <> report_name t2)
      by (intros E; apply Hne; now apply report_name_inj).
    split; [exact Hn|].
    rewrite lookup_insert_ne by congruence. apply lookup_insert_eq.
  - intros ->. apply lookup_insert_eq.
Qed.

End WithSystem.

Import Examples.Compare.

Lemma run_command_classifies_witness :
  fst (run_command (sys := slow_system) "julia benchmark_powermodels.jl"
         "RUNNING POWERMODELS.JL BENCHMARK" world)
  = Ok (false, "", "Timeout after 30 minutes").
Proof.
  destruct (run_command_classifies (sys := slow_system) "julia benchmark_powermodels.jl"
              "RUNNING POWERMODELS.JL BENCHMARK" world) as [Hr _].
  exact Hr.
Defined.

Lemma main_without_grid_model_witness :
  exists w', main (sys := quiet_system) empty_world = (Ok 1%Z, w')
             /\ same_store empty_world w'.
Proof.
  apply (main_without_grid_model (sys := quiet_system) empty_world); reflexivity.
Defined.

Lemma main_reports_what_the_programs_left_witness :
  exists w',
    main (sys := julia_only_system) world = (Ok 1%Z, w')
    /\ w_env w' = tt
    /\ w_files w'
       = <["powermodels_results.json" := FResults (record "PowerModels.jl" timing_100_50)]>
           (w_files world)
    /\ w_reports w' !! "benchmark_comparison_20240101_000000.json"
       = Some {| report_timestamp := "2024-01-01T00:00:00";
                 powsybl_results := None;
                 powermodels_results := Some (record "PowerModels.jl" timing_100_50);
                 comparison_summary := None |}.
Proof.
  destruct (main_reports_what_the_programs_left (sys := julia_only_system) world)
    as (w' & Em & Ee & Ef & Er).
  - eexists. vm_compute. reflexivity.
  - intros e He. discriminate He.
  - intros e He. discriminate He.
  - exists w'. split; [exact Em|]. split; [exact Ee|]. split.
    + rewrite Ef. vm_compute. reflexivity.
    + refine (eq_trans _ (eq_trans Er _)); [reflexivity|].
      vm_compute. reflexivity.
Defined.

Lemma reports_accumulate_witness :
  let w1 := {| w_env := 1%Z; w_out := []; w_files := ∅; w_reports := ∅ |} in
  let after1 := snd (save_comparison_report (sys := clock_system) None None None w1) in
  let w2 := {| w_env := 2%Z; w_out := w_out after1; w_files := ∅;
               w_reports := w_reports after1 |} in
  let after2 := snd (save_comparison_report (sys := clock_system) None None None w2) in
  w_reports after2 !! "benchmark_comparison_1.json"
  = Some {| report_timestamp := "1"; powsybl_results := None;
            powermodels_results := None; comparison_summary := None |}
  /\ w_reports after2 !! "benchmark_comparison_2.json"
     = Some {| report_timestamp := "2"; powsybl_results := None;
               powermodels_results := None; comparison_summary := None |}.
Proof.
  cbv zeta.
  destruct (reports_accumulate (sys := clock_system) None None None None None None
              {| w_env := 1%Z; w_out := []; w_files := ∅; w_reports := ∅ |}
              {| w_env := 2%Z;
                 w_out := w_out (snd (save_comparison_report (sys := clock_system)
                                        None None None
                                        {| w_env := 1%Z; w_out := []; w_files := ∅;
                                           w_reports := ∅ |}));
                 w_files := ∅;
                 w_reports := w_reports (snd (save_comparison_report (sys := clock_system)
                                                None None None
                                                {| w_env := 1%Z; w_out := [];
                                                   w_files := ∅; w_reports := ∅ |})) |}
              eq_refl)
    as (_ & _ & H2 & H1 & _).
  split.
  - apply H1. vm_compute. discriminate.
  - exact H2.
Defined.

End ComparisonMore.
